(** * mini Wave_Gen (Arduino nano, v01): a shallow embedding of the sketch

    The sketch [mini_Wave_Gen-v01.ino] is translated function by function:
    the waveform generator [wave_calc], the encoder decoder [read_Encoder],
    the frequency to interval conversion [update_freq] and the cooperative
    [loop] with its three modes.

    Machine model (ATmega328, avr-gcc):
    - [uint8_t], [uint16_t], [uint32_t] are integers in [Z] reduced modulo
      2^8, 2^16, 2^32 where the C arithmetic wraps; [int] is 16 bits wide;
    - [float] (and [double]) is IEEE-754 binary32, given by the
      parameterised operations of [SpecFloat] at precision 24 and maximal
      exponent 128, every operation rounded to nearest even;
    - a conversion from [float] to an integer type discards the fraction;
      C leaves the conversion of a value outside the target range
      undefined, and the model then reduces the truncated value modulo the
      width of the target. *)

From Stdlib Require Import ZArith Lia Bool QArith Qround.
From Stdlib Require Import Floats.SpecFloat.
From stdpp Require Import base list strings.

Local Open Scope Z_scope.

(** ** Machine integers *)

Module Int.

Definition wrap (w z : Z) : Z := z mod 2 ^ w.

Definition u8 : Z -> Z := wrap 8.
Definition u16 : Z -> Z := wrap 16.
Definition u32 : Z -> Z := wrap 32.

(** Two's complement reading of the low [w] bits. *)
Definition signed (w z : Z) : Z :=
  let r := wrap w z in
  if r <? 2 ^ (w - 1) then r else r - 2 ^ w.

Definition s8 : Z -> Z := signed 8.
Definition s32 : Z -> Z := signed 32.

(** C truth value of an integer. *)
Definition truthy (z : Z) : bool := negb (z =? 0).

End Int.

(** ** Single precision floats *)

Module F32.

Definition float : Type := spec_float.

Definition prec : Z := 24.
Definition emax : Z := 128.

Definition add : float -> float -> float := SFadd prec emax.
Definition mul : float -> float -> float := SFmul prec emax.
Definition div : float -> float -> float := SFdiv prec emax.

(** Conversion of an integer value, as for [(float)n] and for the usual
    arithmetic conversions of an integer operand. *)
Definition of_Z (z : Z) : float := binary_normalize prec emax z 0 false.

(** A decimal literal [n / 10^k]: the float nearest to the quotient. *)
Definition decimal (n : Z) (k : Z) : float := div (of_Z n) (of_Z (10 ^ k)).

Definition ltb : float -> float -> bool := SFltb.
Definition gtb (x y : float) : bool := SFltb y x.

(** The integer part, rounding toward zero; 0 for NaN and infinities. *)
Definition trunc (x : float) : Z :=
  match x with
  | S754_finite s m e =>
      let a := if 0 <=? e then Z.shiftl (Zpos m) e else Z.shiftr (Zpos m) (- e) in
      if s then - a else a
  | _ => 0
  end.

Definition to_uint16 (x : float) : Z := Int.u16 (trunc x).
Definition to_uint8 (x : float) : Z := Int.u8 (trunc x).
Definition to_uint32 (x : float) : Z := Int.u32 (trunc x).
Definition to_int32 (x : float) : Z := Int.s32 (trunc x).

(** The exact rational value of a finite float. *)
Definition to_Q (x : float) : Q :=
  match x with
  | S754_finite s m e =>
      let a := if 0 <=? e then inject_Z (Z.shiftl (Zpos m) e)
               else Qmake (Zpos m) (Pos.shiftl 1 (Z.to_N (- e))) in
      if s then Qopp a else a
  | _ => 0%Q
  end.

End F32.

Import F32.

(** ** Constants of the sketch *)

Definition Vref : float := decimal 4975 3.
Definition time_compensation : float := decimal 985 3.

Definition buffer_size : Z := 128.
Definition sample_size : list Z := [16; 32; 64; 128].

Definition initial_freq : float := of_Z 50.
Definition initial_amplitude : float := Vref.
Definition initial_offset : float := div Vref (of_Z 2).
Definition initial_samples : float := of_Z 32.

Definition freq_max : Z := 568.

(** [PI] comes from the Arduino core header, which is not part of the
    sketch: the single precision float nearest to pi. *)
Definition PI : float := S754_finite false 13176795 (-22).

(** enum { RUNNING, CONFIGURING, CALCULATING } *)
Definition RUNNING : Z := 0.
Definition CONFIGURING : Z := 1.
Definition CALCULATING : Z := 2.

(** enum { SINE, RAMP, SQUARE, DC } *)
Definition SINE : Z := 0.
Definition RAMP : Z := 1.
Definition SQUARE : Z := 2.
Definition DC : Z := 3.

(** The multiplier of each editable field, indexed by [SW2_state]. *)
Definition multipliers : list float :=
  [ of_Z 1;        (* 0 - waveform *)
    of_Z 10;       (* 1 - freq *)
    of_Z 1;        (* 2 - freq *)
    of_Z 1;        (* 3 - amp *)
    decimal 1 1;   (* 4 - amp *)
    decimal 1 2;   (* 5 - amp *)
    of_Z 1;        (* 6 - off *)
    decimal 1 1;   (* 7 - off *)
    decimal 1 2;   (* 8 - off *)
    of_Z 1 ].      (* 9 - samples *)

Definition pgm_read_float (table : list float) (k : nat) : float :=
  default (of_Z 0) (table !! k).

(** ** The waveform generator *)

(** The final [if] chain of the loop body of [wave_calc]: the value that is
    stored for the computed [temp]. *)
Definition saturate (temp : Z) : Z :=
  if temp >? 4095 then 4095
  else if temp <? 0 then 0
  else Int.u16 temp.

(** The locals [v_const], [const_sin_rad] and [level_variation] as set by
    the first [if] chain of [wave_calc]. *)
Record wave_locals := {
  v_const : float;
  const_sin_rad : float;
  level_variation : float
}.

(** ** The globals of the sketch *)

(** [wave_parameters], indexed by enum { FREQ, AMPLITUDE, OFFSET, SAMPLES };
    the sketch only ever indexes it with these four constants. *)
Record params := {
  FREQ : float;
  AMPLITUDE : float;
  OFFSET : float;
  SAMPLES : float
}.

Definition set_FREQ (v : float) (p : params) : params :=
  {| FREQ := v; AMPLITUDE := AMPLITUDE p; OFFSET := OFFSET p; SAMPLES := SAMPLES p |}.
Definition set_AMPLITUDE (v : float) (p : params) : params :=
  {| FREQ := FREQ p; AMPLITUDE := v; OFFSET := OFFSET p; SAMPLES := SAMPLES p |}.
Definition set_OFFSET (v : float) (p : params) : params :=
  {| FREQ := FREQ p; AMPLITUDE := AMPLITUDE p; OFFSET := v; SAMPLES := SAMPLES p |}.
Definition set_SAMPLES (v : float) (p : params) : params :=
  {| FREQ := FREQ p; AMPLITUDE := AMPLITUDE p; OFFSET := OFFSET p; SAMPLES := v |}.

Record state := {
  encoder_A : Z;                    (* uint8_t *)
  encoder_B : Z;                    (* uint8_t *)
  encoder_A_prev : Z;               (* uint8_t *)
  enc_value : Z;                    (* int8_t *)
  SW1_state : Z;                    (* uint8_t: RUNNING, CONFIGURING, CALCULATING *)
  SW2_state : Z;                    (* uint8_t: the field being edited *)
  i : Z;                            (* uint16_t: the free-running sample index *)
  last_sample_time : Z;             (* uint32_t *)
  last_sample_time2 : Z;            (* uint32_t *)
  wave : list Z;                    (* uint16_t wave[buffer_size] *)
  wave_parameters : params;         (* float wave_parameters[4] *)
  sample_interval : Z;              (* uint32_t, microseconds *)
  samples_uint : Z;                 (* uint16_t *)
  float_pgm_read : float;           (* float *)
  waveform : Z;                     (* uint8_t *)
  dac : list Z                      (* the codes given to dac.setVoltage, latest first *)
}.

Definition set_encoder_A (v : Z) (s : state) : state :=
  Build_state v (encoder_B s) (encoder_A_prev s) (enc_value s) (SW1_state s)
    (SW2_state s) (i s) (last_sample_time s) (last_sample_time2 s) (wave s)
    (wave_parameters s) (sample_interval s) (samples_uint s)
    (float_pgm_read s) (waveform s) (dac s).

Definition set_encoder_B (v : Z) (s : state) : state :=
  Build_state (encoder_A s) v (encoder_A_prev s) (enc_value s) (SW1_state s)
    (SW2_state s) (i s) (last_sample_time s) (last_sample_time2 s) (wave s)
    (wave_parameters s) (sample_interval s) (samples_uint s)
    (float_pgm_read s) (waveform s) (dac s).

Definition set_encoder_A_prev (v : Z) (s : state) : state :=
  Build_state (encoder_A s) (encoder_B s) v (enc_value s) (SW1_state s)
    (SW2_state s) (i s) (last_sample_time s) (last_sample_time2 s) (wave s)
    (wave_parameters s) (sample_interval s) (samples_uint s)
    (float_pgm_read s) (waveform s) (dac s).

Definition set_enc_value (v : Z) (s : state) : state :=
  Build_state (encoder_A s) (encoder_B s) (encoder_A_prev s) v (SW1_state s)
    (SW2_state s) (i s) (last_sample_time s) (last_sample_time2 s) (wave s)
    (wave_parameters s) (sample_interval s) (samples_uint s)
    (float_pgm_read s) (waveform s) (dac s).

Definition set_SW1_state (v : Z) (s : state) : state :=
  Build_state (encoder_A s) (encoder_B s) (encoder_A_prev s) (enc_value s) v
    (SW2_state s) (i s) (last_sample_time s) (last_sample_time2 s) (wave s)
    (wave_parameters s) (sample_interval s) (samples_uint s)
    (float_pgm_read s) (waveform s) (dac s).

Definition set_SW2_state (v : Z) (s : state) : state :=
  Build_state (encoder_A s) (encoder_B s) (encoder_A_prev s) (enc_value s)
    (SW1_state s) v (i s) (last_sample_time s) (last_sample_time2 s)
    (wave s) (wave_parameters s) (sample_interval s) (samples_uint s)
    (float_pgm_read s) (waveform s) (dac s).

Definition set_i (v : Z) (s : state) : state :=
  Build_state (encoder_A s) (encoder_B s) (encoder_A_prev s) (enc_value s)
    (SW1_state s) (SW2_state s) v (last_sample_time s) (last_sample_time2 s)
    (wave s) (wave_parameters s) (sample_interval s) (samples_uint s)
    (float_pgm_read s) (waveform s) (dac s).

Definition set_last_sample_time (v : Z) (s : state) : state :=
  Build_state (encoder_A s) (encoder_B s) (encoder_A_prev s) (enc_value s)
    (SW1_state s) (SW2_state s) (i s) v (last_sample_time2 s) (wave s)
    (wave_parameters s) (sample_interval s) (samples_uint s)
    (float_pgm_read s) (waveform s) (dac s).

Definition set_last_sample_time2 (v : Z) (s : state) : state :=
  Build_state (encoder_A s) (encoder_B s) (encoder_A_prev s) (enc_value s)
    (SW1_state s) (SW2_state s) (i s) (last_sample_time s) v (wave s)
    (wave_parameters s) (sample_interval s) (samples_uint s)
    (float_pgm_read s) (waveform s) (dac s).

Definition set_wave (v : list Z) (s : state) : state :=
  Build_state (encoder_A s) (encoder_B s) (encoder_A_prev s) (enc_value s)
    (SW1_state s) (SW2_state s) (i s) (last_sample_time s)
    (last_sample_time2 s) v (wave_parameters s) (sample_interval s)
    (samples_uint s) (float_pgm_read s) (waveform s) (dac s).

Definition set_wave_parameters (v : params) (s : state) : state :=
  Build_state (encoder_A s) (encoder_B s) (encoder_A_prev s) (enc_value s)
    (SW1_state s) (SW2_state s) (i s) (last_sample_time s)
    (last_sample_time2 s) (wave s) v (sample_interval s) (samples_uint s)
    (float_pgm_read s) (waveform s) (dac s).

Definition set_sample_interval (v : Z) (s : state) : state :=
  Build_state (encoder_A s) (encoder_B s) (encoder_A_prev s) (enc_value s)
    (SW1_state s) (SW2_state s) (i s) (last_sample_time s)
    (last_sample_time2 s) (wave s) (wave_parameters s) v (samples_uint s)
    (float_pgm_read s) (waveform s) (dac s).

Definition set_samples_uint (v : Z) (s : state) : state :=
  Build_state (encoder_A s) (encoder_B s) (encoder_A_prev s) (enc_value s)
    (SW1_state s) (SW2_state s) (i s) (last_sample_time s)
    (last_sample_time2 s) (wave s) (wave_parameters s) (sample_interval s) v
    (float_pgm_read s) (waveform s) (dac s).

Definition set_float_pgm_read (v : float) (s : state) : state :=
  Build_state (encoder_A s) (encoder_B s) (encoder_A_prev s) (enc_value s)
    (SW1_state s) (SW2_state s) (i s) (last_sample_time s)
    (last_sample_time2 s) (wave s) (wave_parameters s) (sample_interval s)
    (samples_uint s) v (waveform s) (dac s).

Definition set_waveform (v : Z) (s : state) : state :=
  Build_state (encoder_A s) (encoder_B s) (encoder_A_prev s) (enc_value s)
    (SW1_state s) (SW2_state s) (i s) (last_sample_time s)
    (last_sample_time2 s) (wave s) (wave_parameters s) (sample_interval s)
    (samples_uint s) (float_pgm_read s) v (dac s).

Definition set_dac (v : list Z) (s : state) : state :=
  Build_state (encoder_A s) (encoder_B s) (encoder_A_prev s) (enc_value s)
    (SW1_state s) (SW2_state s) (i s) (last_sample_time s)
    (last_sample_time2 s) (wave s) (wave_parameters s) (sample_interval s)
    (samples_uint s) (float_pgm_read s) (waveform s) v.

(** What one iteration of [loop] reads from the outside: the two readings
    of [micros()] an iteration can take (the test, then the time stamp) and
    the levels of the two encoder pins. *)
Record inputs := {
  micros_1 : Z;
  micros_2 : Z;
  pin_CLK : bool;
  pin_DATA : bool
}.

(** [digitalRead] gives HIGH (1) or LOW (0). *)
Definition digitalRead (level : bool) : Z := Z.b2z level.

Section Sketch.

(** [sin] is the math library's; the sketch only calls it. *)
Variable sin : float -> float.

Definition wave_setup (points : Z) (amplitude : float) (wave : Z) : wave_locals :=
  let zero := of_Z 0 in
  if wave =? SINE then
    {| v_const := div (mul (div (of_Z 4096) Vref) amplitude) (of_Z 2);
       const_sin_rad := div (mul (of_Z 2) PI) (of_Z points);
       level_variation := zero |}
  else if wave =? RAMP then
    {| v_const := div (mul (div (of_Z 4096) Vref) amplitude) (of_Z 1);
       const_sin_rad := zero;
       level_variation := div (of_Z 1) (of_Z points) |}
  else if wave =? SQUARE then
    {| v_const := div (mul (div (of_Z 4096) Vref) amplitude) (of_Z 1);
       const_sin_rad := zero;
       level_variation := zero |}
  else if wave =? DC then
    {| v_const := div (mul (div (of_Z 4096) Vref) amplitude) (of_Z 1);
       const_sin_rad := zero;
       level_variation := zero |}
  else
    {| v_const := zero; const_sin_rad := zero; level_variation := zero |}.

(** The value of [temp] after the first [if] chain of the loop body, at
    sample [k]; [temp] keeps its previous value for an unknown kind. *)
Definition wave_temp (c : wave_locals) (points : Z) (offset : float)
    (wave : Z) (k : Z) (temp : Z) : Z :=
  if wave =? SINE then
    let temp_float := sin (mul (mul (const_sin_rad c) (of_Z k)) (of_Z 1)) in
    let temp_float :=
      add (mul temp_float (v_const c)) (mul (div (of_Z 4096) Vref) offset) in
    to_int32 temp_float
  else if wave =? RAMP then
    let temp_float := mul (of_Z k) (level_variation c) in
    let temp_float :=
      add (mul temp_float (v_const c)) (mul (div (of_Z 4096) Vref) offset) in
    to_int32 temp_float
  else if wave =? SQUARE then
    if k <? points / 2 then
      to_int32 (add (v_const c) (mul (div (of_Z 4096) Vref) offset))
    else
      to_int32 (mul (div (of_Z 4096) Vref) offset)
  else if wave =? DC then
    to_int32 (mul (div (of_Z 4096) Vref) offset)
  else temp.

(** The [for] loop: [n] iterations are left and the counter is at [k].
    [points] is a [uint16_t], so the counter never wraps before the loop
    ends.  A store past the end of [array] would overwrite whatever follows
    the buffer in memory; the list is then left as it is. *)
Fixpoint wave_calc_loop (n : nat) (k : Z) (c : wave_locals) (points : Z)
    (offset : float) (wave : Z) (array : list Z) (temp : Z) : list Z :=
  match n with
  | O => array
  | S n' =>
      let temp' := wave_temp c points offset wave k temp in
      let array' := <[Z.to_nat k := saturate temp']> array in
      wave_calc_loop n' (k + 1) c points offset wave array' temp'
  end.

Definition wave_calc (array : list Z) (points : Z) (amplitude offset : float)
    (wave : Z) : list Z :=
  wave_calc_loop (Z.to_nat points) 0 (wave_setup points amplitude wave)
    points offset wave array 0.

(** The raw value computed for sample [k] of a waveform of a known kind. *)
Definition raw_sample (points : Z) (amplitude offset : float) (wave : Z)
    (k : Z) : Z :=
  wave_temp (wave_setup points amplitude wave) points offset wave k 0.


(** ** The encoder *)

Definition read_Encoder (clk data : bool) (s : state) : Z * state :=
  let value := 0 in
  let s := set_encoder_A (Int.u8 (digitalRead clk)) s in
  let s := set_encoder_B (Int.u8 (digitalRead data)) s in
  let value :=
    if negb (Int.truthy (encoder_A s)) && Int.truthy (encoder_A_prev s) then
      if Int.truthy (encoder_B s) then Int.s8 (value + 1)
      else Int.s8 (value - 1)
    else value in
  let s := set_encoder_A_prev (encoder_A s) s in
  (value, s).

(** ** The interval between two samples *)

Definition update_freq (s : state) : state :=
  let time_temp := div (of_Z 1) (FREQ (wave_parameters s)) in
  let time_temp := div time_temp (SAMPLES (wave_parameters s)) in
  let time_temp := mul time_temp (of_Z 1000000) in
  let time_temp := mul time_temp time_compensation in
  set_sample_interval (to_uint32 time_temp) s.

(** ** The saturation of the parameters

    The four [if] chains run every 500 ms while configuring.  The integer
    quotient [freq_max / (samples >> 4)] has a zero divisor when the sample
    count is below 16, which C leaves undefined; [Z]'s quotient is then 0. *)
Definition saturate_freq (p : params) : params :=
  if to_uint16 (FREQ p) >? freq_max / Z.shiftr (to_uint16 (SAMPLES p)) 4 then
    set_FREQ
      (div (of_Z freq_max) (of_Z (Z.shiftr (to_uint16 (SAMPLES p)) 4))) p
  else if ltb (FREQ p) (of_Z 0) then set_FREQ (of_Z 1) p
  else p.

Definition saturate_amplitude (p : params) : params :=
  if gtb (AMPLITUDE p) Vref then set_AMPLITUDE Vref p
  else if ltb (AMPLITUDE p) (of_Z 0) then set_AMPLITUDE (of_Z 0) p
  else p.

Definition saturate_offset (p : params) : params :=
  if gtb (OFFSET p) Vref then set_OFFSET Vref p
  else if ltb (OFFSET p) (of_Z 0) then set_OFFSET (of_Z 0) p
  else p.

Definition saturate_samples (p : params) : params :=
  if ltb (SAMPLES p) (of_Z 16) then set_SAMPLES (of_Z 16) p else p.

Definition saturate_parameters (p : params) : params :=
  saturate_samples (saturate_offset (saturate_amplitude (saturate_freq p))).

(** ** The field editor: the [switch (SW2_state)] of the configuring mode *)

Definition add_step (k : nat) (field : params -> float)
    (set_field : float -> params -> params) (s : state) : state :=
  let s := set_float_pgm_read (pgm_read_float multipliers k) s in
  let p := wave_parameters s in
  set_wave_parameters
    (set_field (add (field p) (mul (float_pgm_read s) (of_Z (enc_value s)))) p)
    s.

Definition edit_field (s : state) : state :=
  match SW2_state s with
  | 0 =>
      let s := set_float_pgm_read (pgm_read_float multipliers 0) s in
      set_waveform
        (Int.u8 (Z.land
           (waveform s + to_uint8 (float_pgm_read s) * enc_value s) 3)) s
  | 1 =>
      let s := add_step 1 FREQ set_FREQ s in
      if waveform s =? DC then set_SW2_state 6 s else s
  | 2 => add_step 2 FREQ set_FREQ s
  | 3 => add_step 3 AMPLITUDE set_AMPLITUDE s
  | 4 => add_step 4 AMPLITUDE set_AMPLITUDE s
  | 5 => add_step 5 AMPLITUDE set_AMPLITUDE s
  | 6 => add_step 6 OFFSET set_OFFSET s
  | 7 => add_step 7 OFFSET set_OFFSET s
  | 8 => add_step 8 OFFSET set_OFFSET s
  | 9 =>
      let s := set_float_pgm_read (pgm_read_float multipliers 9) s in
      let aux := to_uint16 (SAMPLES (wave_parameters s)) in
      let aux :=
        if enc_value s =? 1 then Int.u16 (Z.shiftl aux 1)
        else if enc_value s =? -1 then Z.shiftr aux 1
        else aux in
      let aux := Z.land aux 240 in
      set_wave_parameters (set_SAMPLES (of_Z aux) (wave_parameters s)) s
  | _ => set_SW2_state 0 s
  end.

(** ** The sample scheduler *)

(** The index [i & (samples_uint - 1)] of the sample that is played. *)
Definition sample_index (i samples_uint : Z) : Z :=
  Z.land i (Int.u16 (samples_uint - 1)).

(** [wave[k]]; a read past the end of the buffer, which C leaves
    undefined, gives 0. *)
Definition wave_at (wave : list Z) (k : Z) : Z :=
  default 0 (wave !! Z.to_nat k).

(** ** The main loop, one iteration *)

Definition loop (inp : inputs) (s : state) : state :=
  if SW1_state s =? RUNNING then
    if Int.u32 (micros_1 inp - last_sample_time s) >=? sample_interval s then
      let s := set_last_sample_time (micros_2 inp) s in
      let s :=
        set_dac (wave_at (wave s) (sample_index (i s) (samples_uint s)) :: dac s)
          s in
      set_i (Int.u16 (i s + 1)) s
    else s
  else if SW1_state s =? CONFIGURING then
    let s :=
      if Int.u32 (micros_1 inp - last_sample_time2 s) >=? 500000 then
        let s :=
          set_wave_parameters (saturate_parameters (wave_parameters s)) s in
        set_last_sample_time2 (micros_2 inp) s
      else s in
    let (value, s) := read_Encoder (pin_CLK inp) (pin_DATA inp) s in
    let s := set_enc_value value s in
    edit_field s
  else if SW1_state s =? CALCULATING then
    let s := set_samples_uint (to_uint16 (SAMPLES (wave_parameters s))) s in
    let p := wave_parameters s in
    let s :=
      if (waveform s =? SINE) || (waveform s =? RAMP)
         || (waveform s =? SQUARE) || (waveform s =? DC) then
        set_wave
          (wave_calc (wave s) (samples_uint s) (AMPLITUDE p) (OFFSET p)
             (waveform s)) s
      else s in
    let s := update_freq s in
    let s := set_SW1_state RUNNING s in
    set_SW2_state 0 s
  else set_SW1_state 0 s.

End Sketch.

(** The two interrupt routines only count the key presses. *)
Definition SW1_interrupt (s : state) : state :=
  set_SW1_state (Int.u8 (SW1_state s + 1)) s.
Definition SW2_interrupt (s : state) : state :=
  set_SW2_state (Int.u8 (SW2_state s + 1)) s.

(** The globals when [setup] returns: [now] and [now2] are its two
    readings of [micros()] and [clk] is the level of the encoder clock.
    ([currentTime] and [loopTime] are set there and never read.) *)
Definition setup (now now2 : Z) (clk : bool) : state :=
  {| encoder_A := 0; encoder_B := 0;
     encoder_A_prev := Int.u8 (digitalRead clk);
     enc_value := 0;
     SW1_state := CALCULATING; SW2_state := 0;
     i := 0;
     last_sample_time := now; last_sample_time2 := now2;
     wave := replicate (Z.to_nat buffer_size) 0;
     wave_parameters :=
       {| FREQ := initial_freq; AMPLITUDE := initial_amplitude;
          OFFSET := initial_offset; SAMPLES := initial_samples |};
     sample_interval := 0;
     samples_uint := 0;
     float_pgm_read := of_Z 0;
     waveform := SINE;
     dac := [] |}.

(** ** The words of the specification, for comparison *)

Local Open Scope Q_scope.

(** (1 / frequency) / sampleCount x 1,000,000 x timingCompensation, over the
    rationals, with timingCompensation = 0.985. *)
Definition interval_exact (frequency : Q) (sampleCount : Z) : Q :=
  (1 / frequency) / inject_Z sampleCount * 1000000 * (985 # 1000).

(** Rounding to the nearest integer. *)
Definition Qround_nearest (x : Q) : Z := Qfloor (x + (1 # 2)).

Definition interval_spec (frequency : Q) (sampleCount : Z) : Z :=
  Qround_nearest (interval_exact frequency sampleCount).

Local Close Scope Q_scope.

(** ** Runs of the sketch *)

(** What happens between two looks at the globals: one iteration of
    [loop], or a key press served by its interrupt routine. *)
Inductive event :=
  | Iterate (inp : inputs)
  | PressSW1
  | PressSW2.

Definition step (sin : float -> float) (s : state) (e : event) : state :=
  match e with
  | Iterate inp => loop sin inp s
  | PressSW1 => SW1_interrupt s
  | PressSW2 => SW2_interrupt s
  end.

Definition run (sin : float -> float) (s : state) (es : list event) : state :=
  foldl (step sin) s es.

(** The waveform kinds. *)
Definition known_kind (wave : Z) : Prop :=
  wave = SINE \/ wave = RAMP \/ wave = SQUARE \/ wave = DC.

(** The globals with the frequency and the sample count replaced. *)
Definition with_freq_samples (freq samples : float) (s : state) : state :=
  set_wave_parameters
    (set_SAMPLES samples (set_FREQ freq (wave_parameters s))) s.

(** ** Concrete data for the examples *)

(** A polynomial stand-in for the library's [sin] on [0, 2 pi], used only
    to run the sketch on examples: the Taylor polynomial of degree 9,
    after the argument is brought into [-pi, pi]. *)
Definition sin_poly (x : float) : float :=
  let x := if gtb x PI then add x (SFopp (mul (of_Z 2) PI)) else x in
  let x2 := mul x x in
  let one := of_Z 1 in
  let h k p := add one (SFopp (mul (div x2 (of_Z k)) p)) in
  mul x (h 6 (h 20 (h 42 (h 72 one)))).

(** The globals after [setup] at time 1000 with the encoder clock high. *)
Definition power_on : state := setup 1000 1004 true.

(** An iteration at time [now] with the encoder at rest. *)
Definition quiet (now : Z) : event :=
  Iterate {| micros_1 := now; micros_2 := now + 4;
             pin_CLK := true; pin_DATA := true |}.

(** An iteration that sees one notch of the encoder: the clock has fallen
    while the data line is at [data]. *)
Definition notch (now : Z) (data : bool) : event :=
  Iterate {| micros_1 := now; micros_2 := now + 4;
             pin_CLK := false; pin_DATA := data |}.

(** From power-on: the first waveform is computed, the mode key is pressed
    and the first iteration of the configuring mode has run. *)
Definition configuring : state :=
  run sin_poly power_on [quiet 2000; PressSW1; quiet 3000].

(** The sample interval is the integer part of the exact quotient, for
    the integral frequency [k] and the sample count [N]. *)
Definition interval_floor_ok (N k : Z) : bool :=
  sample_interval (update_freq (with_freq_samples (of_Z k) (of_Z N) power_on))
  =? Qfloor (interval_exact (inject_Z k) N).

(** The parameters with frequency [f] at 128 samples per cycle. *)
Definition requested_at_128 (f : float) : params :=
  {| FREQ := f; AMPLITUDE := initial_amplitude; OFFSET := initial_offset;
     SAMPLES := of_Z 128 |}.

(** The field key pressed [n] times. *)
Definition field_key (n : nat) : list event := replicate n PressSW2.

(** A notch of the encoder, then the clock back high. *)
Definition turn (now : Z) (data : bool) : list event :=
  [notch now data; quiet (now + 1000)].

(** ** The display

    [update_display] only talks to the display driver; what it does is the
    sequence of calls it makes. *)

Inductive colour := WHITE | BLACK.

Inductive display_call :=
  | setCursor (x y : Z)
  | setTextSize (n : Z)
  | setTextColor (c bg : colour)
  | print (text : string)
  | println (text : string)
  | print_float (v : float)
  | display_display.

(** enum { DISPLAY_VALUES, DISPLAY_ALL } *)
Definition DISPLAY_VALUES : Z := 0.
Definition DISPLAY_ALL : Z := 1.

Definition wave_text_1 : list string :=
  ["SINE  "; "RAMP  "; "SQUARE"; "DC    "].

Definition parameter_text : list string :=
  [ "Freq: "; " Hz  ";
    "Amp : "; " V   ";
    "Voff: "; " V   ";
    "Samp: "; "     " ].

(** [pgm_read_word] on a table of texts. *)
Definition pgm_read_text (table : list string) (k : Z) : string :=
  default "" (table !! Z.to_nat k).

(** [wave_parameters[count]] for the four indices. *)
Definition wave_parameter (p : params) (count : Z) : float :=
  match count with
  | 0 => FREQ p
  | 1 => AMPLITUDE p
  | 2 => OFFSET p
  | _ => SAMPLES p
  end.

(** The body of the [for] loop of [update_display], at line [count] with
    the row [y_pos]. *)
Definition display_line (select waveform : Z) (p : params) (count y_pos : Z)
    : list display_call :=
  if negb (waveform =? DC) then
    [setCursor 0 y_pos]
    ++ (if select =? 1 then [println (pgm_read_text parameter_text (count * 2 + 0))]
        else [])
    ++ [setCursor 36 y_pos;
        print_float (wave_parameter p count);
        println (pgm_read_text parameter_text (count * 2 + 1))]
  else if count <? 2 then
    (if select =? 1 then [print (pgm_read_text parameter_text (count * 2 + 0))]
     else [])
    ++ [setCursor 36 y_pos; println "        "]
  else
    (if select =? 1 then [print (pgm_read_text parameter_text (count * 2 + 0))]
     else [])
    ++ [setCursor 36 y_pos;
        print_float (wave_parameter p count);
        println (pgm_read_text parameter_text (count * 2 + 1))].

Fixpoint display_lines (n : nat) (select waveform : Z) (p : params)
    (count y_pos : Z) : list display_call :=
  match n with
  | O => []
  | S n' =>
      display_line select waveform p count y_pos
      ++ display_lines n' select waveform p (count + 1) (Int.u8 (y_pos + 8))
  end.

Definition update_display (select : Z) (s : state) : list display_call :=
  (if select =? 1 then
     [setCursor 0 8; setTextSize 1; setTextColor WHITE BLACK; println "Wave: "]
   else [])
  ++ [setTextSize 2; setCursor 35 0;
      println (pgm_read_text wave_text_1 (waveform s));
      setTextSize 1]
  ++ display_lines 4 select (waveform s) (wave_parameters s) 0 32
  ++ [display_display].

(** The values printed by a sequence of calls, and the rows the cursor is
    put on in the column of the values. *)
Definition printed_values (calls : list display_call) : list float :=
  omap (fun c => match c with print_float v => Some v | _ => None end) calls.

Definition value_rows (calls : list display_call) : list Z :=
  omap (fun c => match c with
                 | setCursor x y => if x =? 36 then Some y else None
                 | _ => None
                 end) calls.

(** What is written in the column of the values: each row the cursor is
    put on there, with the call that follows. *)
Fixpoint value_cells (calls : list display_call)
    : list (Z * display_call) :=
  match calls with
  | [] => []
  | setCursor x y :: rest =>
      match rest with
      | c :: _ => if x =? 36 then (y, c) :: value_cells rest
                  else value_cells rest
      | [] => []
      end
  | _ :: rest => value_cells rest
  end.

Definition printed_texts (calls : list display_call) : list string :=
  omap (fun c => match c with
                 | print t => Some t
                 | println t => Some t
                 | _ => None
                 end) calls.

(** ** The parts of an iteration in the configuring mode *)

(** The first [if] of the configuring mode: the saturation pass, when
    500 ms have gone by since the last one. *)
Definition refresh (inp : inputs) (s : state) : state :=
  if Int.u32 (micros_1 inp - last_sample_time2 s) >=? 500000 then
    set_last_sample_time2 (micros_2 inp)
      (set_wave_parameters (saturate_parameters (wave_parameters s)) s)
  else s.

(** ** Sequences of iterations while running *)

(** Every iteration of the list finds its sample due: [t] is the time of
    the last sample and [interval] the interval between two. *)
Fixpoint all_due (t interval : Z) (inps : list inputs) : Prop :=
  match inps with
  | [] => True
  | inp :: rest =>
      interval <= Int.u32 (micros_1 inp - t)
      /\ all_due (micros_2 inp) interval rest
  end.

(** The entries of the table in playing order: [n] of them from index
    [first] on, round the [N] samples of a cycle. *)
Definition played (table : list Z) (N first : Z) (n : nat) : list Z :=
  map (fun k => wave_at table ((first + Z.of_nat k) mod N)) (seq 0 n).

(** ** What holds in every state the sketch reaches *)

Definition reachable_samples : list Z := [0; 16; 32; 64; 128].

Definition well_formed (s : state) : Prop :=
  known_kind (waveform s)
  /\ length (wave s) = 128%nat
  /\ Forall (fun v => 0 <= v <= 4095) (wave s)
  /\ In (SAMPLES (wave_parameters s)) (map of_Z reachable_samples)
  /\ In (samples_uint s) reachable_samples.

(** ** Checks by evaluation *)

(** A step of [e] times [m] (10 or 1) from the integral frequency [k] gives
    the integral frequency [k + m e], exactly. *)
Definition same_float (x y : float) : bool :=
  match x, y with
  | S754_zero a, S754_zero b => Bool.eqb a b
  | S754_infinity a, S754_infinity b => Bool.eqb a b
  | S754_nan, S754_nan => true
  | S754_finite a m e, S754_finite b n f =>
      Bool.eqb a b && (Pos.eqb m n) && (e =? f)
  | _, _ => false
  end.

Definition freq_step_ok (m e k : Z) : bool :=
  same_float (add (of_Z k) (mul (of_Z m) (of_Z e))) (of_Z (k + m * e)).

(** The multiplier of the two frequency fields. *)
Definition freq_multiplier (field : Z) : Z := if field =? 1 then 10 else 1.

(** The value [update_freq] computes from a frequency and a sample count. *)
Definition interval_of (freq samples : float) : Z :=
  to_uint32
    (mul (mul (div (div (of_Z 1) freq) samples) (of_Z 1000000))
       time_compensation).

(** The interval between two samples lies within 108 and 61562
    microseconds, at the integral frequency [k] and [N] samples. *)
Definition interval_range_ok (N k : Z) : bool :=
  (108 <=? interval_of (of_Z k) (of_Z N))
  && (interval_of (of_Z k) (of_Z N) <=? 61562).

(** ** Machine integers: basic facts *)

Lemma u16_small z : 0 <= z < 65536 -> Int.u16 z = z.
Proof. intros H. unfold Int.u16, Int.wrap. apply Z.mod_small. lia. Qed.

Lemma u16_range z : 0 <= Int.u16 z < 65536.
Proof.
  unfold Int.u16, Int.wrap. change (2 ^ 16) with 65536.
  apply Z.mod_pos_bound. lia.
Qed.

(** Within the range of [int32_t] the conversion is the integer part. *)
Lemma to_int32_trunc x :
  - 2 ^ 31 <= trunc x < 2 ^ 31 -> to_int32 x = trunc x.
Proof.
  intros H. unfold to_int32, Int.s32, Int.signed, Int.wrap.
  change (2 ^ (32 - 1)) with (2 ^ 31). change (2 ^ 32) with (2 * 2 ^ 31).
  destruct (Z.ltb_spec (trunc x mod (2 * 2 ^ 31)) (2 ^ 31)) as [Hlt | Hge].
  - destruct (Z.neg_nonneg_cases (trunc x)) as [Hneg | Hpos].
    + rewrite <- (Z_mod_plus_full _ 1) in Hlt.
      rewrite Z.mod_small in Hlt; lia.
    + apply Z.mod_small. lia.
  - destruct (Z.neg_nonneg_cases (trunc x)) as [Hneg | Hpos].
    + rewrite <- (Z_mod_plus_full _ 1). rewrite Z.mod_small; lia.
    + rewrite Z.mod_small in Hge; lia.
Qed.

(** ** The waveform generator *)

Lemma saturate_range temp : 0 <= saturate temp <= 4095.
Proof.
  unfold saturate.
  destruct (Z.gtb_spec temp 4095); [lia|].
  destruct (Z.ltb_spec temp 0); [lia|].
  rewrite u16_small; lia.
Qed.

Lemma saturate_high temp : 4095 < temp -> saturate temp = 4095.
Proof. intros H. unfold saturate. destruct (Z.gtb_spec temp 4095); [done|lia]. Qed.

Lemma saturate_low temp : temp < 0 -> saturate temp = 0.
Proof.
  intros H. unfold saturate.
  destruct (Z.gtb_spec temp 4095); [lia|].
  destruct (Z.ltb_spec temp 0); [done|lia].
Qed.

Lemma saturate_mid temp : 0 <= temp <= 4095 -> saturate temp = temp.
Proof.
  intros H. unfold saturate.
  destruct (Z.gtb_spec temp 4095); [lia|].
  destruct (Z.ltb_spec temp 0); [lia|].
  apply u16_small. lia.
Qed.

Section WaveCalcFacts.

Variable sin : float -> float.

(** For the four kinds, [temp] is computed afresh at every sample. *)
Lemma wave_temp_known c points offset wave k temp temp' :
  known_kind wave ->
  wave_temp sin c points offset wave k temp
  = wave_temp sin c points offset wave k temp'.
Proof.
  intros [-> | [-> | [-> | ->]]]; reflexivity.
Qed.

Lemma wave_calc_loop_length n : forall k c points offset wave array temp,
  length (wave_calc_loop sin n k c points offset wave array temp) = length array.
Proof.
  induction n as [|n IH]; intros; simpl; [done|].
  rewrite IH. apply length_insert.
Qed.

(** The loop touches no cell outside of the [n] cells from [k] on. *)
Lemma wave_calc_loop_outside n : forall k c points offset wave array temp (j : nat),
  0 <= k ->
  (j < Z.to_nat k \/ Z.to_nat k + n <= j)%nat ->
  wave_calc_loop sin n k c points offset wave array temp !! j = array !! j.
Proof.
  induction n as [|n IH]; intros k c points offset wave array temp j Hk Hj;
    simpl; [done|].
  rewrite IH; [|lia|lia].
  apply list_lookup_insert_ne. lia.
Qed.

(** Every cell among them holds the saturated value of its own sample. *)
Lemma wave_calc_loop_inside n : forall k c points offset wave array temp (j : nat),
  0 <= k -> known_kind wave ->
  (Z.to_nat k <= j < Z.to_nat k + n)%nat ->
  (j < length array)%nat ->
  wave_calc_loop sin n k c points offset wave array temp !! j
  = Some (saturate (wave_temp sin c points offset wave (Z.of_nat j) 0)).
Proof.
  induction n as [|n IH]; intros k c points offset wave array temp j Hk Hw Hj Hlen;
    simpl; [lia|].
  destruct (decide (j = Z.to_nat k)) as [->|Hne].
  - rewrite wave_calc_loop_outside; [|lia|lia].
    rewrite list_lookup_insert_eq; [|done].
    rewrite Z2Nat.id; [|done].
    do 2 f_equal. by apply wave_temp_known.
  - apply IH; [lia|done|lia|].
    by rewrite length_insert.
Qed.

End WaveCalcFacts.

(** C1: for each of the four kinds, every sample count, amplitude and
    offset, the entry that [wave_calc] stores at an index below [points]
    lies in [0, 4095]; it is 4095 when the raw value [temp] computed for
    the sample is above 4095, 0 when it is below 0, and the raw value itself
    otherwise. *)
Theorem wave_calc_stores_saturated (sin : float -> float) (array : list Z)
    (points : Z) (amplitude offset : float) (wave k : Z) :
  known_kind wave ->
  0 <= k < points ->
  (Z.to_nat k < length array)%nat ->
  exists v,
    wave_calc sin array points amplitude offset wave !! Z.to_nat k = Some v
    /\ 0 <= v <= 4095
    /\ (let raw := raw_sample sin points amplitude offset wave k in
        (4095 < raw -> v = 4095)
        /\ (raw < 0 -> v = 0)
        /\ (0 <= raw <= 4095 -> v = raw)).
Proof.
  intros Hw Hk Hlen.
  exists (saturate (raw_sample sin points amplitude offset wave k)).
  split; [|split; [apply saturate_range|]].
  - unfold wave_calc, raw_sample.
    rewrite wave_calc_loop_inside; [|lia|done|lia|done].
    rewrite Z2Nat.id; [done|lia].
  - cbv zeta. split; [apply saturate_high|].
    split; [apply saturate_low|apply saturate_mid].
Qed.

Lemma wave_calc_stores_saturated_witness :
  exists v,
    wave_calc sin_poly (wave power_on) 32 Vref Vref SINE !! Z.to_nat 8 = Some v
    /\ 0 <= v <= 4095
    /\ (let raw := raw_sample sin_poly 32 Vref Vref SINE 8 in
        (4095 < raw -> v = 4095)
        /\ (raw < 0 -> v = 0)
        /\ (0 <= raw <= 4095 -> v = raw)).
Proof.
  apply (wave_calc_stores_saturated sin_poly (wave power_on) 32 Vref Vref SINE 8).
  - left. reflexivity.
  - lia.
  - vm_compute. lia.
Defined.

(** C10: a call of [wave_calc] with at most 128 points leaves every entry
    of the 128-element buffer at an index from [points] on as it was, and
    the buffer keeps its length. *)
Theorem wave_calc_keeps_tail (sin : float -> float) (array : list Z)
    (points : Z) (amplitude offset : float) (wave : Z) (j : nat) :
  length array = 128%nat ->
  0 <= points <= 128 ->
  (Z.to_nat points <= j < 128)%nat ->
  length (wave_calc sin array points amplitude offset wave) = 128%nat
  /\ wave_calc sin array points amplitude offset wave !! j = array !! j.
Proof.
  intros Hlen Hp Hj. unfold wave_calc. split.
  - by rewrite wave_calc_loop_length.
  - apply wave_calc_loop_outside; [lia|]. right. simpl. lia.
Qed.

Lemma wave_calc_keeps_tail_witness :
  let stale := wave configuring in
  length (wave_calc sin_poly stale 16 Vref initial_offset RAMP) = 128%nat
  /\ wave_calc sin_poly stale 16 Vref initial_offset RAMP !! 20%nat
     = stale !! 20%nat.
Proof.
  apply (wave_calc_keeps_tail sin_poly (wave configuring) 16 Vref
           initial_offset RAMP 20).
  - vm_compute. reflexivity.
  - lia.
  - vm_compute. lia.
Defined.

(** ** The sample scheduler *)

Lemma sample_index_pow2 idx n :
  0 <= n < 16 -> sample_index idx (2 ^ n) = idx mod 2 ^ n.
Proof.
  intros Hn. unfold sample_index.
  assert (0 < 2 ^ n < 2 ^ 16) as Hp.
  { split; [apply Z.pow_pos_nonneg; lia|apply Z.pow_lt_mono_r; lia]. }
  change (2 ^ 16) with 65536 in Hp.
  rewrite u16_small; [|lia].
  rewrite <- Z.land_ones; [|lia].
  f_equal. rewrite Z.ones_equiv. lia.
Qed.

(** C7: for a sample count N among 16, 32, 64, 128 the scheduler's index
    [i & (N - 1)] is [i mod N], so both read the same entry of the buffer,
    for every index; for N = 16 the indices 0..31 read the first 16 entries
    twice over, and index 17 reads entry 1. *)
Theorem sample_index_wraps (wave : list Z) (N idx : Z) :
  In N sample_size ->
  sample_index idx N = idx mod N
  /\ wave_at wave (sample_index idx N) = wave_at wave (idx mod N)
  /\ map (fun k => wave_at wave (sample_index k 16)) (seqZ 0 32)
     = map (wave_at wave) (seqZ 0 16) ++ map (wave_at wave) (seqZ 0 16)
  /\ sample_index 17 16 = 1.
Proof.
  intros HN.
  assert (sample_index idx N = idx mod N) as Hidx.
  { simpl in HN. destruct HN as [<- | [<- | [<- | [<- | []]]]].
    - apply (sample_index_pow2 idx 4). lia.
    - apply (sample_index_pow2 idx 5). lia.
    - apply (sample_index_pow2 idx 6). lia.
    - apply (sample_index_pow2 idx 7). lia. }
  split; [done|]. split; [by rewrite Hidx|]. split; reflexivity.
Qed.

Lemma sample_index_wraps_witness :
  sample_index 200 64 = 200 mod 64
  /\ wave_at (wave configuring) (sample_index 200 64)
     = wave_at (wave configuring) (200 mod 64)
  /\ map (fun k => wave_at (wave configuring) (sample_index k 16)) (seqZ 0 32)
     = map (wave_at (wave configuring)) (seqZ 0 16)
       ++ map (wave_at (wave configuring)) (seqZ 0 16)
  /\ sample_index 17 16 = 1.
Proof.
  apply (sample_index_wraps (wave configuring) 64 200).
  simpl. right. right. left. reflexivity.
Defined.

(** While running, an iteration whose sample is due gives the converter
    the entry at [sample_index] and advances the index. *)
Lemma loop_running_emits (sin : float -> float) (inp : inputs) (s : state) :
  SW1_state s = RUNNING ->
  sample_interval s <= Int.u32 (micros_1 inp - last_sample_time s) ->
  dac (loop sin inp s)
  = wave_at (wave s) (sample_index (i s) (samples_uint s)) :: dac s
  /\ i (loop sin inp s) = Int.u16 (i s + 1)
  /\ last_sample_time (loop sin inp s) = micros_2 inp.
Proof.
  intros Hmode Hdue. unfold loop. rewrite Hmode. simpl.
  destruct (Z.geb_spec (Int.u32 (micros_1 inp - last_sample_time s))
              (sample_interval s)); [done|lia].
Qed.

(** ** The encoder *)

(** C8: [read_Encoder] returns +1 exactly when the clock was high and is
    now low with the data line high, -1 exactly when the clock was high and
    is now low with the data line low, 0 when the clock has not fallen; and
    the clock level just read becomes the previous level. *)
Theorem read_Encoder_decodes (s : state) (clk data : bool) :
  let falling := Int.truthy (encoder_A_prev s) && negb clk in
  let r := read_Encoder clk data s in
  (r.1 = 1 <-> falling = true /\ data = true)
  /\ (r.1 = -1 <-> falling = true /\ data = false)
  /\ (falling = false -> r.1 = 0)
  /\ encoder_A_prev r.2 = digitalRead clk.
Proof.
  unfold read_Encoder.
  cbn [set_encoder_A set_encoder_B set_encoder_A_prev encoder_A encoder_B
       encoder_A_prev fst snd].
  destruct (Int.truthy (encoder_A_prev s)), clk, data; vm_compute;
    intuition congruence.
Qed.

(** ** The calculating mode *)

Lemma update_freq_interval s :
  sample_interval (update_freq s)
  = to_uint32
      (mul (mul (div (div (of_Z 1) (FREQ (wave_parameters s)))
                   (SAMPLES (wave_parameters s)))
              (of_Z 1000000)) time_compensation).
Proof. reflexivity. Qed.

(** C9: an iteration of [loop] that starts in the calculating mode, for any
    of the four kinds and any parameters, regenerates the table and the
    sample interval from the parameters: with n the sample count, every
    entry below n is the saturated value computed for its sample, the
    entries from n on and the length are kept, and the interval is the
    integer part of ((1 / FREQ) / SAMPLES * 1000000) * 0.985 in single
    precision; the iteration ends in the running mode with [SW2_state] at 0
    and the parameters as they were. *)
Theorem loop_calculating (sin : float -> float) (inp : inputs) (s : state) :
  SW1_state s = CALCULATING ->
  known_kind (waveform s) ->
  let s' := loop sin inp s in
  let p := wave_parameters s in
  let n := to_uint16 (SAMPLES p) in
  (forall j : nat,
     (j < Z.to_nat n)%nat -> (j < length (wave s))%nat ->
     wave s' !! j
     = Some (saturate (raw_sample sin n (AMPLITUDE p) (OFFSET p) (waveform s)
                         (Z.of_nat j))))
  /\ (forall j : nat, (Z.to_nat n <= j)%nat -> wave s' !! j = wave s !! j)
  /\ length (wave s') = length (wave s)
  /\ sample_interval s'
     = to_uint32
         (mul (mul (div (div (of_Z 1) (FREQ p)) (SAMPLES p)) (of_Z 1000000))
            time_compensation)
  /\ samples_uint s' = n
  /\ wave s'
     = wave_calc sin (wave s) (to_uint16 (SAMPLES p)) (AMPLITUDE p) (OFFSET p)
         (waveform s)
  /\ sample_interval s' = sample_interval (update_freq s)
  /\ wave_parameters s' = p
  /\ SW1_state s' = RUNNING
  /\ SW2_state s' = 0.
Proof.
  intros Hmode Hkind. cbv zeta.
  assert (wave (loop sin inp s)
          = wave_calc sin (wave s) (to_uint16 (SAMPLES (wave_parameters s)))
              (AMPLITUDE (wave_parameters s)) (OFFSET (wave_parameters s))
              (waveform s)
          /\ sample_interval (loop sin inp s) = sample_interval (update_freq s)
          /\ samples_uint (loop sin inp s)
             = to_uint16 (SAMPLES (wave_parameters s))
          /\ wave_parameters (loop sin inp s) = wave_parameters s
          /\ SW1_state (loop sin inp s) = RUNNING
          /\ SW2_state (loop sin inp s) = 0) as (Hw & Hi & Hn & Hp & Hm & Hc).
  { unfold loop. rewrite Hmode.
    change (CALCULATING =? RUNNING) with false.
    change (CALCULATING =? CONFIGURING) with false.
    change (CALCULATING =? CALCULATING) with true. cbv iota.
    cbn [set_samples_uint waveform wave wave_parameters samples_uint].
    assert ((waveform s =? SINE) || (waveform s =? RAMP)
            || (waveform s =? SQUARE) || (waveform s =? DC) = true) as ->.
    { destruct Hkind as [E | [E | [E | E]]]; rewrite E; reflexivity. }
    repeat split; reflexivity. }
  rewrite Hw, Hi, Hn, Hp, Hm, Hc.
  split; [|split; [|split; [|split; [|repeat split; reflexivity]]]].
  - intros j Hj Hlen. unfold wave_calc, raw_sample.
    apply wave_calc_loop_inside; [lia|done|simpl; lia|done].
  - intros j Hj. unfold wave_calc.
    apply wave_calc_loop_outside; [lia|]. right. simpl. lia.
  - unfold wave_calc. apply wave_calc_loop_length.
  - apply update_freq_interval.
Qed.

Lemma loop_calculating_witness :
  let s' := loop sin_poly {| micros_1 := 2000; micros_2 := 2004;
                             pin_CLK := true; pin_DATA := true |} power_on in
  let p := wave_parameters power_on in
  let n := to_uint16 (SAMPLES p) in
  (forall j : nat,
     (j < Z.to_nat n)%nat -> (j < length (wave power_on))%nat ->
     wave s' !! j
     = Some (saturate (raw_sample sin_poly n (AMPLITUDE p) (OFFSET p)
                         (waveform power_on) (Z.of_nat j))))
  /\ (forall j : nat,
        (Z.to_nat n <= j)%nat -> wave s' !! j = wave power_on !! j)
  /\ length (wave s') = length (wave power_on)
  /\ sample_interval s'
     = to_uint32
         (mul (mul (div (div (of_Z 1) (FREQ p)) (SAMPLES p)) (of_Z 1000000))
            time_compensation)
  /\ samples_uint s' = n
  /\ wave s'
     = wave_calc sin_poly (wave power_on) (to_uint16 (SAMPLES p)) (AMPLITUDE p)
         (OFFSET p) (waveform power_on)
  /\ sample_interval s' = sample_interval (update_freq power_on)
  /\ wave_parameters s' = p
  /\ SW1_state s' = RUNNING
  /\ SW2_state s' = 0.
Proof.
  apply (loop_calculating sin_poly _ power_on).
  - reflexivity.
  - left. reflexivity.
Defined.

(** ** The interval between two samples *)

Lemma interval_floor_ok_all :
  forallb (fun N => forallb (interval_floor_ok N) (seqZ 1 freq_max)) sample_size
  = true.
Proof. vm_compute. reflexivity. Qed.

(** C5, as the code has it: for every integral frequency from 1 to 568 Hz
    and every sample count among 16, 32, 64, 128, [update_freq] sets
    [sample_interval] to the integer part (rounding toward zero, not to the
    nearest) of (1/f) / N x 1,000,000 x 0.985. *)
Theorem update_freq_truncates (s : state) (k N : Z) :
  1 <= k <= freq_max ->
  In N sample_size ->
  FREQ (wave_parameters s) = of_Z k ->
  SAMPLES (wave_parameters s) = of_Z N ->
  sample_interval (update_freq s) = Qfloor (interval_exact (inject_Z k) N).
Proof.
  intros Hk HN Hf Hs.
  pose proof interval_floor_ok_all as Hall.
  rewrite forallb_forall in Hall. specialize (Hall N HN).
  rewrite forallb_forall in Hall.
  assert (In k (seqZ 1 freq_max)) as Hin.
  { apply list_elem_of_In, elem_of_seqZ. lia. }
  specialize (Hall k Hin). unfold interval_floor_ok in Hall.
  apply Z.eqb_eq in Hall. rewrite <- Hall.
  rewrite !update_freq_interval, Hf, Hs. reflexivity.
Qed.

Lemma update_freq_truncates_witness :
  sample_interval (update_freq power_on) = Qfloor (interval_exact (inject_Z 50) 32).
Proof.
  apply (update_freq_truncates power_on 50 32).
  - unfold freq_max. lia.
  - simpl. right. left. reflexivity.
  - reflexivity.
  - reflexivity.
Defined.

(** C5, as the specification words it, fails at the initial parameters:
    at 50 Hz and 32 samples the exact interval is 615.625 microseconds,
    which rounds to 616, and [update_freq] stores 615. *)
Lemma update_freq_not_rounded :
  FREQ (wave_parameters power_on) = of_Z 50
  /\ SAMPLES (wave_parameters power_on) = of_Z 32
  /\ Qeq (interval_exact (inject_Z 50) 32) (615625 # 1000)
  /\ interval_spec (inject_Z 50) 32 = 616
  /\ sample_interval (update_freq power_on) = 615
  /\ sample_interval (update_freq power_on) <> interval_spec (inject_Z 50) 32.
Proof. vm_compute. repeat split; congruence. Qed.

(** ** The saturation of the frequency *)

Lemma saturate_parameters_FREQ p :
  FREQ (saturate_parameters p) = FREQ (saturate_freq p).
Proof.
  unfold saturate_parameters, saturate_samples, saturate_offset,
    saturate_amplitude.
  repeat match goal with |- context [if ?b then _ else _] => destruct b end;
    reflexivity.
Qed.

Lemma to_uint16_trunc f : 0 <= trunc f < 65536 -> to_uint16 f = trunc f.
Proof. apply u16_small. Qed.

Lemma saturate_freq_above (p : params) (n b : Z) :
  to_uint16 (SAMPLES p) = n ->
  freq_max / Z.shiftr n 4 = b ->
  0 <= b < trunc (FREQ p) ->
  trunc (FREQ p) < 65536 ->
  FREQ (saturate_freq p) = div (of_Z freq_max) (of_Z (Z.shiftr n 4)).
Proof.
  intros Hn Hb Hlo Hhi. unfold saturate_freq.
  rewrite Hn, Hb, to_uint16_trunc; [|lia].
  destruct (Z.gtb_spec (trunc (FREQ p)) b); [reflexivity|lia].
Qed.

(** C3: the saturation pass does not make every frequency positive.  From
    the initial 50 Hz, five notches down on the tens digit give 0 Hz; the
    pass that runs afterwards tests for a frequency below 0 only and leaves
    0 in place, and the calculating mode that follows a press of the mode
    key divides by it. *)
Theorem saturation_keeps_zero_frequency :
  let s :=
    run sin_poly configuring
      (field_key 1 ++ turn 4000 false ++ turn 6000 false ++ turn 8000 false
       ++ turn 10000 false ++ turn 12000 false ++ [quiet 600000]) in
  last_sample_time2 s = 600004
  /\ FREQ (wave_parameters s) = of_Z 0
  /\ FREQ (saturate_parameters (wave_parameters s)) = of_Z 0
  /\ gtb (FREQ (saturate_parameters (wave_parameters s))) (of_Z 0) = false
  /\ SW1_state (run sin_poly s [PressSW1]) = CALCULATING
  /\ FREQ (wave_parameters (run sin_poly s [PressSW1; quiet 700000])) = of_Z 0
  /\ div (of_Z 1) (FREQ (wave_parameters s)) = S754_infinity false.
Proof. vm_compute. repeat split; reflexivity. Qed.

(** ** The field editor *)

(** C2: the update of field 9 leaves the range 16..128 at both ends.  With
    16 samples a notch down gives 8 & 0xF0 = 0, and with 128 samples a notch
    up gives 256 & 0xF0 = 0. *)
Theorem field9_leaves_range :
  let at16 := run sin_poly configuring (field_key 9 ++ turn 4000 false) in
  let at128 :=
    run sin_poly configuring
      (field_key 9 ++ turn 4000 true ++ turn 6000 true) in
  let down := run sin_poly at16 [notch 8000 false] in
  let up := run sin_poly at128 [notch 8000 true] in
  (SW2_state at16 = 9
   /\ to_uint16 (SAMPLES (wave_parameters at16)) = 16
   /\ enc_value down = -1
   /\ to_uint16 (SAMPLES (wave_parameters down)) = 0)
  /\ (SW2_state at128 = 9
      /\ to_uint16 (SAMPLES (wave_parameters at128)) = 128
      /\ enc_value up = 1
      /\ to_uint16 (SAMPLES (wave_parameters up)) = 0).
Proof. vm_compute. repeat split; reflexivity. Qed.

(** At field 1 the step is applied to the frequency whatever the kind; the
    kind only decides where the cursor goes. *)
Lemma edit_field_1 (s : state) :
  SW2_state s = 1 ->
  FREQ (wave_parameters (edit_field s))
  = add (FREQ (wave_parameters s)) (mul (of_Z 10) (of_Z (enc_value s)))
  /\ SW2_state (edit_field s) = (if waveform s =? DC then 6 else 1).
Proof.
  intros H1. unfold edit_field. rewrite H1. simpl.
  destruct (waveform s =? DC); simpl; rewrite ?H1; done.
Qed.

(** C4: with the kind DC, the iteration at field 1 moves the cursor to
    field 6 but first applies the step to the frequency: a notch up takes
    the frequency from 50 to 60 Hz. *)
Theorem dc_field1_changes_frequency :
  let s := run sin_poly configuring (turn 4000 false ++ field_key 1) in
  let s' := run sin_poly s [notch 6000 true] in
  (waveform s = DC
   /\ SW2_state s = 1
   /\ FREQ (wave_parameters s) = of_Z 50)
  /\ (enc_value s' = 1
      /\ SW2_state s' = 6
      /\ FREQ (wave_parameters s') = of_Z 60).
Proof. vm_compute. repeat split; reflexivity. Qed.

(** * Further properties of the sketch *)

(** ** The field editor *)

Lemma land_3_mod_4 z : Z.land z 3 = z mod 4.
Proof. change 3 with (Z.ones 2). rewrite Z.land_ones; [reflexivity|lia]. Qed.

(** X1: at field 0 the kind becomes (kind + step) mod 4, so it is one of
    the four kinds whatever the step and the kind before, and no parameter
    changes. *)
Theorem edit_field_waveform_wraps (s : state) :
  SW2_state s = 0 ->
  waveform (edit_field s) = (waveform s + enc_value s) mod 4
  /\ known_kind (waveform (edit_field s))
  /\ wave_parameters (edit_field s) = wave_parameters s
  /\ SW2_state (edit_field s) = 0.
Proof.
  intros H0. unfold edit_field. rewrite H0.
  cbn [set_waveform set_float_pgm_read waveform float_pgm_read enc_value
       wave_parameters SW2_state].
  change (to_uint8 (pgm_read_float multipliers 0)) with 1.
  rewrite Z.mul_1_l, land_3_mod_4.
  pose proof (Z.mod_pos_bound (waveform s + enc_value s) 4 ltac:(lia)) as Hb.
  assert (Int.u8 ((waveform s + enc_value s) mod 4)
          = (waveform s + enc_value s) mod 4) as ->.
  { unfold Int.u8, Int.wrap. apply Z.mod_small. lia. }
  split; [reflexivity|]. split; [|split; [reflexivity|exact H0]].
  unfold known_kind, SINE, RAMP, SQUARE, DC. lia.
Qed.

Lemma edit_field_waveform_wraps_witness :
  let s := set_enc_value (-1) configuring in
  waveform (edit_field s) = (waveform s + enc_value s) mod 4
  /\ known_kind (waveform (edit_field s))
  /\ wave_parameters (edit_field s) = wave_parameters s
  /\ SW2_state (edit_field s) = 0.
Proof.
  apply (edit_field_waveform_wraps (set_enc_value (-1) configuring)).
  reflexivity.
Defined.

Ltac editor_cases :=
  repeat match goal with
         | |- context [match ?x with _ => _ end] => destruct x
         end.

Lemma edit_field_default (s : state) :
  SW2_state s < 0 \/ 9 < SW2_state s -> edit_field s = set_SW2_state 0 s.
Proof.
  intros H. unfold edit_field.
  destruct (SW2_state s) as [|p|p]; [lia| |reflexivity].
  do 4 (destruct p as [p|p|]; try lia; try reflexivity).
Qed.

Lemma edit_field_cases (s : state) :
  (0 <= SW2_state s <= 9) \/ (SW2_state s < 0 \/ 9 < SW2_state s).
Proof. lia. Qed.

(** The editor leaves the mode, the table and what was derived from it
    alone. *)
Lemma edit_field_frame (s : state) :
  SW1_state (edit_field s) = SW1_state s
  /\ wave (edit_field s) = wave s
  /\ sample_interval (edit_field s) = sample_interval s
  /\ samples_uint (edit_field s) = samples_uint s
  /\ i (edit_field s) = i s
  /\ dac (edit_field s) = dac s.
Proof.
  unfold edit_field, add_step. editor_cases; repeat split; reflexivity.
Qed.

Lemma read_Encoder_frame (clk data : bool) (s : state) :
  let s' := (read_Encoder clk data s).2 in
  SW1_state s' = SW1_state s
  /\ SW2_state s' = SW2_state s
  /\ waveform s' = waveform s
  /\ wave_parameters s' = wave_parameters s
  /\ wave s' = wave s
  /\ sample_interval s' = sample_interval s
  /\ samples_uint s' = samples_uint s
  /\ i s' = i s
  /\ dac s' = dac s.
Proof. repeat split; reflexivity. Qed.

(** X2: within the range, field 9 doubles and halves: from N among 16, 32,
    64, 128 a step up gives 2N unless N is 128, a step down gives N/2
    unless N is 16, and no step leaves N; frequency, amplitude, offset and
    kind are not touched. *)
Theorem edit_field_samples_step (s : state) (N : Z) :
  SW2_state s = 9 ->
  In N sample_size ->
  SAMPLES (wave_parameters s) = of_Z N ->
  let p := wave_parameters s in
  let p' := wave_parameters (edit_field s) in
  (enc_value s = 1 -> N < 128 -> SAMPLES p' = of_Z (2 * N))
  /\ (enc_value s = -1 -> 16 < N -> SAMPLES p' = of_Z (N / 2))
  /\ (enc_value s <> 1 -> enc_value s <> -1 -> SAMPLES p' = of_Z N)
  /\ FREQ p' = FREQ p /\ AMPLITUDE p' = AMPLITUDE p /\ OFFSET p' = OFFSET p
  /\ waveform (edit_field s) = waveform s.
Proof.
  intros H9 HN HS. unfold edit_field. rewrite H9.
  cbn [set_wave_parameters set_float_pgm_read wave_parameters enc_value
       waveform SAMPLES FREQ AMPLITUDE OFFSET set_SAMPLES].
  rewrite HS.
  simpl in HN. destruct HN as [<- | [<- | [<- | [<- | []]]]];
    destruct (Z.eqb_spec (enc_value s) 1) as [E1 | E1];
    destruct (Z.eqb_spec (enc_value s) (-1)) as [E2 | E2];
    repeat split; try reflexivity; intros; try lia; try congruence.
Qed.

Lemma edit_field_samples_step_witness :
  let s := set_enc_value 1 (set_SW2_state 9 configuring) in
  let p := wave_parameters s in
  let p' := wave_parameters (edit_field s) in
  (enc_value s = 1 -> 32 < 128 -> SAMPLES p' = of_Z (2 * 32))
  /\ (enc_value s = -1 -> 16 < 32 -> SAMPLES p' = of_Z (32 / 2))
  /\ (enc_value s <> 1 -> enc_value s <> -1 -> SAMPLES p' = of_Z 32)
  /\ FREQ p' = FREQ p /\ AMPLITUDE p' = AMPLITUDE p /\ OFFSET p' = OFFSET p
  /\ waveform (edit_field s) = waveform s.
Proof.
  apply (edit_field_samples_step
           (set_enc_value 1 (set_SW2_state 9 configuring)) 32).
  - reflexivity.
  - simpl. right. left. reflexivity.
  - reflexivity.
Defined.

(** X3: each of the fields 1 to 8 changes its own parameter only: fields
    1-2 leave amplitude, offset and sample count, fields 3-5 leave
    frequency, offset and sample count, fields 6-8 leave frequency,
    amplitude and sample count; none of them changes the kind. *)
Theorem edit_field_own_parameter (s : state) :
  1 <= SW2_state s <= 8 ->
  let p := wave_parameters s in
  let p' := wave_parameters (edit_field s) in
  waveform (edit_field s) = waveform s
  /\ SAMPLES p' = SAMPLES p
  /\ (SW2_state s <= 2 -> AMPLITUDE p' = AMPLITUDE p /\ OFFSET p' = OFFSET p)
  /\ (3 <= SW2_state s <= 5 -> FREQ p' = FREQ p /\ OFFSET p' = OFFSET p)
  /\ (6 <= SW2_state s -> FREQ p' = FREQ p /\ AMPLITUDE p' = AMPLITUDE p).
Proof.
  intros H.
  assert (SW2_state s = 1 \/ SW2_state s = 2 \/ SW2_state s = 3
          \/ SW2_state s = 4 \/ SW2_state s = 5 \/ SW2_state s = 6
          \/ SW2_state s = 7 \/ SW2_state s = 8) as Hc by lia.
  unfold edit_field, add_step.
  destruct Hc as [E | [E | [E | [E | [E | [E | [E | E]]]]]]]; rewrite E;
    try destruct (waveform _ =? DC);
    repeat split; intros; try reflexivity; lia.
Qed.

Lemma edit_field_own_parameter_witness :
  let s := set_enc_value 1 (set_SW2_state 4 configuring) in
  let p := wave_parameters s in
  let p' := wave_parameters (edit_field s) in
  waveform (edit_field s) = waveform s
  /\ SAMPLES p' = SAMPLES p
  /\ (SW2_state s <= 2 -> AMPLITUDE p' = AMPLITUDE p /\ OFFSET p' = OFFSET p)
  /\ (3 <= SW2_state s <= 5 -> FREQ p' = FREQ p /\ OFFSET p' = OFFSET p)
  /\ (6 <= SW2_state s -> FREQ p' = FREQ p /\ AMPLITUDE p' = AMPLITUDE p).
Proof.
  apply (edit_field_own_parameter
           (set_enc_value 1 (set_SW2_state 4 configuring))).
  vm_compute. split; discriminate.
Defined.

Lemma edit_field_cursor (s : state) : 0 <= SW2_state (edit_field s) <= 9.
Proof.
  destruct (edit_field_cases s) as [Hin | Hout].
  - assert (SW2_state s = 0 \/ SW2_state s = 1 \/ SW2_state s = 2
            \/ SW2_state s = 3 \/ SW2_state s = 4 \/ SW2_state s = 5
            \/ SW2_state s = 6 \/ SW2_state s = 7 \/ SW2_state s = 8
            \/ SW2_state s = 9) as Hc by lia.
    unfold edit_field, add_step.
    destruct Hc as [E | [E | [E | [E | [E | [E | [E | [E | [E | E]]]]]]]]];
      rewrite E; try destruct (waveform _ =? DC); simpl; lia.
  - rewrite edit_field_default; [simpl; lia|done].
Qed.

(** An iteration in the configuring mode: the saturation pass if it is
    due, the encoder, the editor. *)
Lemma loop_configuring (sin : float -> float) (inp : inputs) (s : state) :
  SW1_state s = CONFIGURING ->
  loop sin inp s
  = let r := read_Encoder (pin_CLK inp) (pin_DATA inp) (refresh inp s) in
    edit_field (set_enc_value r.1 r.2).
Proof.
  intros Hmode. unfold loop, refresh. rewrite Hmode.
  change (CONFIGURING =? RUNNING) with false.
  change (CONFIGURING =? CONFIGURING) with true. cbv iota zeta.
  destruct (_ >=? _); reflexivity.
Qed.

Lemma refresh_frame (inp : inputs) (s : state) :
  SW1_state (refresh inp s) = SW1_state s
  /\ SW2_state (refresh inp s) = SW2_state s
  /\ waveform (refresh inp s) = waveform s
  /\ wave (refresh inp s) = wave s
  /\ sample_interval (refresh inp s) = sample_interval s
  /\ samples_uint (refresh inp s) = samples_uint s
  /\ i (refresh inp s) = i s
  /\ dac (refresh inp s) = dac s.
Proof. unfold refresh. destruct (_ >=? _); repeat split; reflexivity. Qed.

(** X4: whatever the field counter was (the interrupt may have counted it
    past 9), an iteration in the configuring mode leaves it in 0..9. *)
Theorem loop_configuring_cursor (sin : float -> float) (inp : inputs)
    (s : state) :
  SW1_state s = CONFIGURING ->
  0 <= SW2_state (loop sin inp s) <= 9.
Proof.
  intros Hmode. rewrite loop_configuring; [|done]. apply edit_field_cursor.
Qed.

Lemma loop_configuring_cursor_witness :
  0 <= SW2_state (loop sin_poly {| micros_1 := 4000; micros_2 := 4004;
                                   pin_CLK := true; pin_DATA := true |}
                    (set_SW2_state 200 configuring)) <= 9.
Proof.
  apply (loop_configuring_cursor sin_poly _ (set_SW2_state 200 configuring)).
  reflexivity.
Defined.

(** ** The modes *)

(** X5: whatever the mode counter holds before it, after an iteration of
    [loop] the mode is RUNNING or CONFIGURING: it is CONFIGURING exactly
    when the iteration started there, and RUNNING in every other case, so a
    calculating pass and an unknown value of the counter both end in
    RUNNING. *)
Theorem loop_mode_after (sin : float -> float) (inp : inputs) (s : state) :
  SW1_state (loop sin inp s)
  = (if SW1_state s =? CONFIGURING then CONFIGURING else RUNNING)
  /\ (SW1_state (loop sin inp s) = RUNNING
      \/ SW1_state (loop sin inp s) = CONFIGURING).
Proof.
  assert (SW1_state (loop sin inp s)
          = (if SW1_state s =? CONFIGURING then CONFIGURING else RUNNING))
    as Heq.
  { destruct (Z.eqb_spec (SW1_state s) CONFIGURING) as [E1 | E1].
    - rewrite loop_configuring; [|done].
      cbv zeta. destruct (edit_field_frame (set_enc_value
        (read_Encoder (pin_CLK inp) (pin_DATA inp) (refresh inp s)).1
        (read_Encoder (pin_CLK inp) (pin_DATA inp) (refresh inp s)).2))
        as [-> _].
      destruct (refresh_frame inp s) as [Hr _]. exact (eq_trans Hr E1).
    - unfold loop.
      destruct (Z.eqb_spec (SW1_state s) RUNNING) as [E0 | E0].
      + destruct (_ >=? _); simpl; exact E0.
      + destruct (Z.eqb_spec (SW1_state s) CONFIGURING); [done|].
        destruct (SW1_state s =? CALCULATING); reflexivity. }
  split; [exact Heq|]. rewrite Heq.
  destruct (SW1_state s =? CONFIGURING); [right|left]; reflexivity.
Qed.

(** X6: outside of the calculating mode an iteration of [loop] changes
    neither the table nor the sample interval nor the sample count in
    use: they are replaced together, by the calculating pass only. *)
Theorem loop_keeps_table (sin : float -> float) (inp : inputs) (s : state) :
  SW1_state s <> CALCULATING ->
  wave (loop sin inp s) = wave s
  /\ sample_interval (loop sin inp s) = sample_interval s
  /\ samples_uint (loop sin inp s) = samples_uint s.
Proof.
  intros Hmode.
  destruct (Z.eq_dec (SW1_state s) CONFIGURING) as [E1 | E1].
  - rewrite loop_configuring; [|done].
    cbv zeta. destruct (edit_field_frame (set_enc_value
      (read_Encoder (pin_CLK inp) (pin_DATA inp) (refresh inp s)).1
      (read_Encoder (pin_CLK inp) (pin_DATA inp) (refresh inp s)).2))
      as (_ & -> & -> & -> & _).
    destruct (refresh_frame inp s) as (_ & _ & _ & Hw & Hi & Hn & _).
    split; [exact Hw|split; [exact Hi|exact Hn]].
  - unfold loop.
    destruct (Z.eqb_spec (SW1_state s) RUNNING) as [E0 | E0].
    + destruct (_ >=? _); simpl; done.
    + destruct (Z.eqb_spec (SW1_state s) CONFIGURING); [done|].
      destruct (Z.eqb_spec (SW1_state s) CALCULATING); [done|].
      simpl. done.
Qed.

Lemma loop_keeps_table_witness :
  let inp := {| micros_1 := 4000; micros_2 := 4004;
                pin_CLK := false; pin_DATA := true |} in
  wave (loop sin_poly inp configuring) = wave configuring
  /\ sample_interval (loop sin_poly inp configuring)
     = sample_interval configuring
  /\ samples_uint (loop sin_poly inp configuring) = samples_uint configuring.
Proof.
  apply (loop_keeps_table sin_poly _ configuring).
  vm_compute. discriminate.
Defined.

(** ** The encoder *)

(** X7: a step is counted once: the read that follows a read which
    returned +1 or -1 returns 0, whatever the pins show then. *)
Theorem read_Encoder_counts_once (s : state) (clk data clk' data' : bool) :
  (read_Encoder clk data s).1 <> 0 ->
  (read_Encoder clk' data' (read_Encoder clk data s).2).1 = 0.
Proof.
  unfold read_Encoder.
  cbn [set_encoder_A set_encoder_B set_encoder_A_prev encoder_A encoder_B
       encoder_A_prev fst snd].
  destruct (Int.truthy (encoder_A_prev s)), clk, data, clk', data';
    vm_compute; congruence.
Qed.

Lemma read_Encoder_counts_once_witness :
  (read_Encoder true true (read_Encoder false true configuring).2).1 = 0.
Proof.
  apply (read_Encoder_counts_once configuring false true true true).
  vm_compute. discriminate.
Defined.

(** ** The sample scheduler *)

Lemma sample_size_cases (N : Z) :
  In N sample_size -> N = 16 \/ N = 32 \/ N = 64 \/ N = 128.
Proof. simpl. intuition. Qed.

Lemma sample_index_valid (idx N : Z) :
  In N sample_size -> sample_index idx N = idx mod N.
Proof.
  intros HN. destruct (sample_size_cases N HN) as [-> | [-> | [-> | ->]]].
  - apply (sample_index_pow2 idx 4). lia.
  - apply (sample_index_pow2 idx 5). lia.
  - apply (sample_index_pow2 idx 6). lia.
  - apply (sample_index_pow2 idx 7). lia.
Qed.

(** The sample counts divide 2^16, so the wrap of the index is not seen. *)
Lemma u16_mod_valid (z N : Z) :
  In N sample_size -> Int.u16 z mod N = z mod N.
Proof.
  intros HN. unfold Int.u16, Int.wrap. change (2 ^ 16) with 65536.
  apply Z.mod_mod_divide.
  destruct (sample_size_cases N HN) as [-> | [-> | [-> | ->]]].
  - exists 4096. lia.
  - exists 2048. lia.
  - exists 1024. lia.
  - exists 512. lia.
Qed.

Lemma played_succ (table : list Z) (N first : Z) (n : nat) :
  played table N first (S n)
  = wave_at table (first mod N) :: played table N (first + 1) n.
Proof.
  unfold played. simpl. rewrite Z.add_0_r. f_equal.
  rewrite <- seq_shift, map_map. apply map_ext. intros k.
  do 2 f_equal. lia.
Qed.

Lemma played_u16 (table : list Z) (N first : Z) (n : nat) :
  In N sample_size ->
  played table N (Int.u16 first) n = played table N first n.
Proof.
  intros HN. unfold played. apply map_ext. intros k. f_equal.
  rewrite Z.add_mod, (u16_mod_valid first N HN), <- Z.add_mod; [done| |].
  all: destruct (sample_size_cases N HN) as [-> | [-> | [-> | ->]]]; lia.
Qed.

Lemma u16_add_l (a b : Z) : Int.u16 (Int.u16 a + b) = Int.u16 (a + b).
Proof. unfold Int.u16, Int.wrap. apply Zplus_mod_idemp_l. Qed.

(** One iteration while running, the sample being due: the whole effect. *)
Lemma loop_running_due (sin : float -> float) (inp : inputs) (s : state) :
  SW1_state s = RUNNING ->
  sample_interval s <= Int.u32 (micros_1 inp - last_sample_time s) ->
  loop sin inp s
  = set_i (Int.u16 (i s + 1))
      (set_dac (wave_at (wave s) (sample_index (i s) (samples_uint s)) :: dac s)
         (set_last_sample_time (micros_2 inp) s)).
Proof.
  intros Hmode Hdue. unfold loop. rewrite Hmode. simpl.
  destruct (Z.geb_spec (Int.u32 (micros_1 inp - last_sample_time s))
              (sample_interval s)); [done|lia].
Qed.

(** X8: while running with N samples per cycle (N among 16, 32, 64, 128),
    a sequence of iterations that each find their sample due gives the
    converter the entries of the table in order, round the N entries of the
    cycle, starting at the current index; the index advances by one per
    sample modulo 2^16 and the mode stays RUNNING. *)
Theorem running_plays_table (sin : float -> float) (inps : list inputs) :
  forall (s : state) (N : Z),
  SW1_state s = RUNNING ->
  samples_uint s = N ->
  In N sample_size ->
  0 <= i s < 65536 ->
  all_due (last_sample_time s) (sample_interval s) inps ->
  let s' := run sin s (map Iterate inps) in
  dac s' = rev (played (wave s) N (i s) (length inps)) ++ dac s
  /\ i s' = Int.u16 (i s + Z.of_nat (length inps))
  /\ SW1_state s' = RUNNING.
Proof.
  induction inps as [|inp rest IH]; intros s N Hmode HN Hin Hi Hdue.
  - simpl. rewrite Z.add_0_r, u16_small; done.
  - destruct Hdue as [Hnow Hrest].
    cbn [map run foldl step length]. fold (run sin).
    rewrite (loop_running_due sin inp s Hmode Hnow).
    set (s1 := set_i _ _).
    specialize (IH s1 N Hmode HN Hin (u16_range _) Hrest).
    cbv zeta in IH. destruct IH as (Hdac & Hidx & Hm).
    split; [|split; [|exact Hm]].
    + unfold run in Hdac |- *. rewrite Hdac. subst s1.
      cbn [set_i set_dac set_last_sample_time wave i dac].
      rewrite played_u16, played_succ, HN, sample_index_valid; [|done..].
      simpl. rewrite <- app_assoc. reflexivity.
    + unfold run in Hidx |- *. rewrite Hidx. subst s1.
      cbn [set_i set_dac set_last_sample_time i].
      rewrite u16_add_l. f_equal. lia.
Qed.

Lemma running_plays_table_witness :
  let s := run sin_poly power_on [quiet 2000] in
  let inps := [ {| micros_1 := 3000; micros_2 := 3004;
                   pin_CLK := true; pin_DATA := true |};
                {| micros_1 := 3700; micros_2 := 3704;
                   pin_CLK := true; pin_DATA := true |} ] in
  let s' := run sin_poly s (map Iterate inps) in
  dac s' = rev (played (wave s) 32 (i s) (length inps)) ++ dac s
  /\ i s' = Int.u16 (i s + Z.of_nat (length inps))
  /\ SW1_state s' = RUNNING.
Proof.
  apply (running_plays_table sin_poly _ (run sin_poly power_on [quiet 2000]) 32).
  - reflexivity.
  - reflexivity.
  - simpl. right. left. reflexivity.
  - vm_compute. split; [discriminate|reflexivity].
  - vm_compute. repeat split; discriminate.
Defined.

(** X9: with a sample count of 0 (what field 9 leaves past either end of
    its range) the mask is 0xFFFF and the scheduler uses the index as it
    is: from index 128 on the read is outside the 128 entries of the
    table. *)
Theorem sample_index_zero_count (table : list Z) (idx : Z) :
  0 <= idx < 65536 ->
  length table = 128%nat ->
  sample_index idx 0 = idx
  /\ (128 <= idx -> table !! Z.to_nat (sample_index idx 0) = None).
Proof.
  intros Hidx Hlen.
  assert (sample_index idx 0 = idx) as ->.
  { unfold sample_index. change (Int.u16 (0 - 1)) with (Z.ones 16).
    rewrite Z.land_ones; [|lia]. apply Z.mod_small.
    change (2 ^ 16) with 65536. lia. }
  split; [reflexivity|]. intros Hge. apply lookup_ge_None. lia.
Qed.

Lemma sample_index_zero_count_witness :
  sample_index 300 0 = 300
  /\ (128 <= 300 -> wave configuring !! Z.to_nat (sample_index 300 0) = None).
Proof.
  apply (sample_index_zero_count (wave configuring) 300).
  - lia.
  - vm_compute. reflexivity.
Defined.

(** ** The waveform generator *)

Section WaveCalcMore.

Variable sin : float -> float.

Lemma wave_calc_length array points amplitude offset wave :
  length (wave_calc sin array points amplitude offset wave) = length array.
Proof. apply wave_calc_loop_length. Qed.

(** The entry at index [j], in the three possible positions. *)
Lemma wave_calc_lookup array points amplitude offset wave (j : nat) :
  known_kind wave ->
  wave_calc sin array points amplitude offset wave !! j
  = if decide (j < Z.to_nat points)%nat then
      if decide (j < length array)%nat then
        Some (saturate (raw_sample sin points amplitude offset wave (Z.of_nat j)))
      else None
    else array !! j.
Proof.
  intros Hk. unfold wave_calc, raw_sample.
  destruct (decide (j < Z.to_nat points)%nat) as [Hlt | Hge].
  - destruct (decide (j < length array)%nat) as [Hin | Hout].
    + apply wave_calc_loop_inside; [lia|done|simpl; lia|done].
    + apply lookup_ge_None. rewrite wave_calc_loop_length. lia.
  - apply wave_calc_loop_outside; [lia|]. right. simpl. lia.
Qed.

Lemma wave_calc_loop_Forall (P : Z -> Prop) n :
  (forall temp, P (saturate temp)) ->
  forall k c points offset wave array temp,
  Forall P array ->
  Forall P (wave_calc_loop sin n k c points offset wave array temp).
Proof.
  intros HP. induction n as [|n IH]; intros; simpl; [done|].
  apply IH. apply Forall_insert; [done|apply HP].
Qed.

End WaveCalcMore.

(** X10: computing the same waveform again changes nothing: for the four
    kinds, [wave_calc] applied to its own result with the same arguments
    gives that result back. *)
Theorem wave_calc_again (sin : float -> float) (array : list Z)
    (points : Z) (amplitude offset : float) (wave : Z) :
  known_kind wave ->
  wave_calc sin (wave_calc sin array points amplitude offset wave)
    points amplitude offset wave
  = wave_calc sin array points amplitude offset wave.
Proof.
  intros Hk. apply list_eq. intros j.
  rewrite (wave_calc_lookup sin (wave_calc sin array points amplitude offset wave));
    [|done].
  rewrite wave_calc_length.
  rewrite (wave_calc_lookup sin array); [|done].
  destruct (decide (j < Z.to_nat points)%nat); reflexivity.
Qed.

Lemma wave_calc_again_witness :
  wave_calc sin_poly (wave_calc sin_poly (wave power_on) 32 Vref Vref SINE)
    32 Vref Vref SINE
  = wave_calc sin_poly (wave power_on) 32 Vref Vref SINE.
Proof.
  apply (wave_calc_again sin_poly (wave power_on) 32 Vref Vref SINE).
  left. reflexivity.
Defined.

(** X11: a DC waveform is flat and does not depend on the amplitude: any
    two entries below [points] are equal, also between two calls that
    differ in the amplitude only. *)
Theorem wave_calc_dc_flat (sin : float -> float) (array : list Z)
    (points : Z) (amplitude amplitude' offset : float) (j k : nat) :
  (j < Z.to_nat points)%nat ->
  (k < Z.to_nat points)%nat ->
  (j < length array)%nat ->
  (k < length array)%nat ->
  wave_calc sin array points amplitude offset DC !! j
  = wave_calc sin array points amplitude' offset DC !! k.
Proof.
  intros Hj Hk Hjl Hkl.
  rewrite !wave_calc_lookup; [|do 3 right; reflexivity..].
  repeat (destruct (decide _); try lia). reflexivity.
Qed.

Lemma wave_calc_dc_flat_witness :
  wave_calc sin_poly (wave power_on) 16 Vref initial_offset DC !! 3%nat
  = wave_calc sin_poly (wave power_on) 16 (of_Z 1) initial_offset DC !! 12%nat.
Proof.
  apply (wave_calc_dc_flat sin_poly (wave power_on) 16 Vref (of_Z 1)
           initial_offset 3 12); vm_compute; lia.
Defined.

(** X12: a square waveform has two levels: any two entries in the same
    half of the cycle are equal, and the entries of the second half are
    those of the DC waveform of the same offset. *)
Theorem wave_calc_square_levels (sin : float -> float) (array : list Z)
    (points : Z) (amplitude offset : float) (j k : nat) :
  (j < Z.to_nat points)%nat ->
  (k < Z.to_nat points)%nat ->
  (j < length array)%nat ->
  (k < length array)%nat ->
  ((Z.of_nat j < points / 2 <-> Z.of_nat k < points / 2) ->
   wave_calc sin array points amplitude offset SQUARE !! j
   = wave_calc sin array points amplitude offset SQUARE !! k)
  /\ (points / 2 <= Z.of_nat k ->
      wave_calc sin array points amplitude offset SQUARE !! k
      = wave_calc sin array points amplitude offset DC !! k).
Proof.
  intros Hj Hk Hjl Hkl.
  rewrite !wave_calc_lookup;
    [|do 3 right; reflexivity|right; right; left; reflexivity..].
  repeat (destruct (decide _); try lia).
  unfold raw_sample, wave_temp.
  change (SQUARE =? SINE) with false. change (SQUARE =? RAMP) with false.
  change (SQUARE =? SQUARE) with true. change (DC =? SINE) with false.
  change (DC =? RAMP) with false. change (DC =? SQUARE) with false.
  change (DC =? DC) with true. cbv iota.
  split.
  - intros Hsame.
    destruct (Z.ltb_spec (Z.of_nat j) (points / 2)),
             (Z.ltb_spec (Z.of_nat k) (points / 2)); try reflexivity; lia.
  - intros Hlow.
    destruct (Z.ltb_spec (Z.of_nat k) (points / 2)); [lia|reflexivity].
Qed.

Lemma wave_calc_square_levels_witness :
  let table := wave power_on in
  ((Z.of_nat 9 < 16 / 2 <-> Z.of_nat 14 < 16 / 2) ->
   wave_calc sin_poly table 16 Vref initial_offset SQUARE !! 9%nat
   = wave_calc sin_poly table 16 Vref initial_offset SQUARE !! 14%nat)
  /\ (16 / 2 <= Z.of_nat 14 ->
      wave_calc sin_poly table 16 Vref initial_offset SQUARE !! 14%nat
      = wave_calc sin_poly table 16 Vref initial_offset DC !! 14%nat).
Proof.
  apply (wave_calc_square_levels sin_poly (wave power_on) 16 Vref
           initial_offset 9 14); vm_compute; lia.
Defined.

(** ** The saturation pass *)

Lemma params_eq (p q : params) :
  FREQ p = FREQ q -> AMPLITUDE p = AMPLITUDE q -> OFFSET p = OFFSET q ->
  SAMPLES p = SAMPLES q -> p = q.
Proof. destruct p, q. simpl. congruence. Qed.

(** The clamp of a value between 0 and [Vref]: the shape shared by the
    amplitude and the offset. *)
Lemma clamp_Vref_bounds (x : float) :
  let y := if gtb x Vref then Vref
           else if ltb x (of_Z 0) then of_Z 0 else x in
  gtb y Vref = false /\ ltb y (of_Z 0) = false
  /\ (gtb x Vref = false -> ltb x (of_Z 0) = false -> y = x).
Proof.
  cbv zeta. destruct (gtb x Vref) eqn:E1.
  - split; [reflexivity|split; [reflexivity|discriminate]].
  - destruct (ltb x (of_Z 0)) eqn:E2.
    + split; [reflexivity|split; [reflexivity|discriminate]].
    + split; [exact E1|split; [exact E2|reflexivity]].
Qed.

(** Each part of the pass writes its own parameter only. *)
Lemma saturate_freq_frame (p : params) :
  AMPLITUDE (saturate_freq p) = AMPLITUDE p
  /\ OFFSET (saturate_freq p) = OFFSET p
  /\ SAMPLES (saturate_freq p) = SAMPLES p.
Proof.
  unfold saturate_freq. destruct (_ >? _); [done|].
  destruct (ltb _ _); done.
Qed.

Lemma saturate_amplitude_frame (p : params) :
  FREQ (saturate_amplitude p) = FREQ p
  /\ OFFSET (saturate_amplitude p) = OFFSET p
  /\ SAMPLES (saturate_amplitude p) = SAMPLES p.
Proof.
  unfold saturate_amplitude. destruct (gtb _ _); [done|].
  destruct (ltb _ _); done.
Qed.

Lemma saturate_offset_frame (p : params) :
  FREQ (saturate_offset p) = FREQ p
  /\ AMPLITUDE (saturate_offset p) = AMPLITUDE p
  /\ SAMPLES (saturate_offset p) = SAMPLES p.
Proof.
  unfold saturate_offset. destruct (gtb _ _); [done|].
  destruct (ltb _ _); done.
Qed.

Lemma saturate_samples_frame (p : params) :
  FREQ (saturate_samples p) = FREQ p
  /\ AMPLITUDE (saturate_samples p) = AMPLITUDE p
  /\ OFFSET (saturate_samples p) = OFFSET p.
Proof. unfold saturate_samples. destruct (ltb _ _); done. Qed.

Lemma saturate_amplitude_value (p : params) :
  AMPLITUDE (saturate_amplitude p)
  = if gtb (AMPLITUDE p) Vref then Vref
    else if ltb (AMPLITUDE p) (of_Z 0) then of_Z 0 else AMPLITUDE p.
Proof.
  unfold saturate_amplitude.
  destruct (gtb _ _); [reflexivity|]. destruct (ltb _ _); reflexivity.
Qed.

Lemma saturate_offset_value (p : params) :
  OFFSET (saturate_offset p)
  = if gtb (OFFSET p) Vref then Vref
    else if ltb (OFFSET p) (of_Z 0) then of_Z 0 else OFFSET p.
Proof.
  unfold saturate_offset.
  destruct (gtb _ _); [reflexivity|]. destruct (ltb _ _); reflexivity.
Qed.

Lemma saturate_samples_value (p : params) :
  SAMPLES (saturate_samples p)
  = if ltb (SAMPLES p) (of_Z 16) then of_Z 16 else SAMPLES p.
Proof. unfold saturate_samples. destruct (ltb _ _); reflexivity. Qed.

(** The four parameters after the whole pass. *)
Lemma saturate_parameters_fields (p : params) :
  FREQ (saturate_parameters p) = FREQ (saturate_freq p)
  /\ AMPLITUDE (saturate_parameters p)
     = (if gtb (AMPLITUDE p) Vref then Vref
        else if ltb (AMPLITUDE p) (of_Z 0) then of_Z 0 else AMPLITUDE p)
  /\ OFFSET (saturate_parameters p)
     = (if gtb (OFFSET p) Vref then Vref
        else if ltb (OFFSET p) (of_Z 0) then of_Z 0 else OFFSET p)
  /\ SAMPLES (saturate_parameters p)
     = (if ltb (SAMPLES p) (of_Z 16) then of_Z 16 else SAMPLES p).
Proof.
  unfold saturate_parameters.
  destruct (saturate_samples_frame
              (saturate_offset (saturate_amplitude (saturate_freq p))))
    as (-> & -> & ->).
  rewrite saturate_samples_value.
  destruct (saturate_offset_frame (saturate_amplitude (saturate_freq p)))
    as (-> & -> & ->).
  rewrite saturate_offset_value.
  destruct (saturate_amplitude_frame (saturate_freq p)) as (-> & -> & ->).
  rewrite saturate_amplitude_value.
  destruct (saturate_freq_frame p) as (-> & -> & ->).
  repeat split; reflexivity.
Qed.

(** X13: after the saturation pass, whatever the parameters were, the
    amplitude and the offset are neither above [Vref] nor below 0 and the
    sample count is not below 16; values that were already so are kept. *)
Theorem saturate_parameters_bounds (p : params) :
  let q := saturate_parameters p in
  (gtb (AMPLITUDE q) Vref = false /\ ltb (AMPLITUDE q) (of_Z 0) = false)
  /\ (gtb (OFFSET q) Vref = false /\ ltb (OFFSET q) (of_Z 0) = false)
  /\ ltb (SAMPLES q) (of_Z 16) = false
  /\ (gtb (AMPLITUDE p) Vref = false -> ltb (AMPLITUDE p) (of_Z 0) = false ->
      AMPLITUDE q = AMPLITUDE p)
  /\ (gtb (OFFSET p) Vref = false -> ltb (OFFSET p) (of_Z 0) = false ->
      OFFSET q = OFFSET p)
  /\ (ltb (SAMPLES p) (of_Z 16) = false -> SAMPLES q = SAMPLES p).
Proof.
  cbv zeta.
  destruct (saturate_parameters_fields p) as (_ & -> & -> & ->).
  destruct (clamp_Vref_bounds (AMPLITUDE p)) as (A1 & A2 & A3).
  destruct (clamp_Vref_bounds (OFFSET p)) as (O1 & O2 & O3).
  cbv zeta in A1, A2, A3, O1, O2, O3.
  repeat split; try assumption.
  - destruct (ltb (SAMPLES p) (of_Z 16)) eqn:E; [reflexivity|exact E].
  - intros ->. reflexivity.
Qed.

Lemma saturate_parameters_bounds_witness :
  let p := {| FREQ := of_Z 50; AMPLITUDE := of_Z 7; OFFSET := of_Z (-1);
              SAMPLES := of_Z 64 |} in
  let q := saturate_parameters p in
  (gtb (AMPLITUDE q) Vref = false /\ ltb (AMPLITUDE q) (of_Z 0) = false)
  /\ (gtb (OFFSET q) Vref = false /\ ltb (OFFSET q) (of_Z 0) = false)
  /\ ltb (SAMPLES q) (of_Z 16) = false
  /\ (gtb (AMPLITUDE p) Vref = false -> ltb (AMPLITUDE p) (of_Z 0) = false ->
      AMPLITUDE q = AMPLITUDE p)
  /\ (gtb (OFFSET p) Vref = false -> ltb (OFFSET p) (of_Z 0) = false ->
      OFFSET q = OFFSET p)
  /\ (ltb (SAMPLES p) (of_Z 16) = false -> SAMPLES q = SAMPLES p).
Proof.
  exact (saturate_parameters_bounds
           {| FREQ := of_Z 50; AMPLITUDE := of_Z 7; OFFSET := of_Z (-1);
              SAMPLES := of_Z 64 |}).
Defined.

(** The frequency after the pass, at a sample count among 16, 32, 64, 128:
    the bound, 1 or the frequency itself. *)
Lemma saturate_freq_valid (p : params) (N : Z) :
  In N sample_size ->
  SAMPLES p = of_Z N ->
  FREQ (saturate_freq p)
  = if to_uint16 (FREQ p) >? freq_max / (N / 16) then of_Z (freq_max / (N / 16))
    else if ltb (FREQ p) (of_Z 0) then of_Z 1
    else FREQ p.
Proof.
  intros HN HS. unfold saturate_freq. rewrite HS.
  destruct (sample_size_cases N HN) as [-> | [-> | [-> | ->]]].
  - change (freq_max / Z.shiftr (to_uint16 (of_Z 16)) 4) with (freq_max / (16 / 16)).
    change (div (of_Z freq_max) (of_Z (Z.shiftr (to_uint16 (of_Z 16)) 4)))
      with (of_Z (freq_max / (16 / 16))).
    destruct (_ >? _); [reflexivity|]. destruct (ltb _ _); reflexivity.
  - change (freq_max / Z.shiftr (to_uint16 (of_Z 32)) 4) with (freq_max / (32 / 16)).
    change (div (of_Z freq_max) (of_Z (Z.shiftr (to_uint16 (of_Z 32)) 4)))
      with (of_Z (freq_max / (32 / 16))).
    destruct (_ >? _); [reflexivity|]. destruct (ltb _ _); reflexivity.
  - change (freq_max / Z.shiftr (to_uint16 (of_Z 64)) 4) with (freq_max / (64 / 16)).
    change (div (of_Z freq_max) (of_Z (Z.shiftr (to_uint16 (of_Z 64)) 4)))
      with (of_Z (freq_max / (64 / 16))).
    destruct (_ >? _); [reflexivity|]. destruct (ltb _ _); reflexivity.
  - change (freq_max / Z.shiftr (to_uint16 (of_Z 128)) 4) with (freq_max / (128 / 16)).
    change (div (of_Z freq_max) (of_Z (Z.shiftr (to_uint16 (of_Z 128)) 4)))
      with (of_Z (freq_max / (128 / 16))).
    destruct (_ >? _); [reflexivity|]. destruct (ltb _ _); reflexivity.
Qed.

(** What is true of the three values the frequency can take. *)
Lemma freq_bound_facts (N : Z) :
  In N sample_size ->
  let b := freq_max / (N / 16) in
  1 <= b
  /\ trunc (of_Z b) = b /\ to_uint16 (of_Z b) = b /\ ltb (of_Z b) (of_Z 0) = false
  /\ trunc (of_Z 1) = 1 /\ to_uint16 (of_Z 1) = 1
  /\ ltb (of_Z 1) (of_Z 0) = false
  /\ ltb (of_Z N) (of_Z 16) = false.
Proof.
  intros HN.
  destruct (sample_size_cases N HN) as [-> | [-> | [-> | ->]]];
    vm_compute; repeat split; congruence.
Qed.

(** X14: at a sample count N among 16, 32, 64, 128 and for a frequency
    whose integer part fits the 16 bits it is compared in, the frequency
    after the saturation pass has an integer part between 0 and
    568 / (N / 16) and is not below 0; the sample count is kept. *)
Theorem saturate_parameters_frequency (p : params) (N : Z) :
  In N sample_size ->
  SAMPLES p = of_Z N ->
  0 <= trunc (FREQ p) < 65536 ->
  let q := saturate_parameters p in
  0 <= trunc (FREQ q) <= freq_max / (N / 16)
  /\ ltb (FREQ q) (of_Z 0) = false
  /\ SAMPLES q = of_Z N.
Proof.
  intros HN HS Hf. cbv zeta.
  destruct (saturate_parameters_fields p) as (-> & _ & _ & ->).
  rewrite (saturate_freq_valid p N HN HS), HS.
  destruct (freq_bound_facts N HN) as (Hb & Ht & _ & Hl & Ht1 & _ & Hl1 & HlN).
  cbv zeta in Hb, Ht, Hl. rewrite HlN.
  rewrite to_uint16_trunc; [|done].
  destruct (Z.gtb_spec (trunc (FREQ p)) (freq_max / (N / 16))) as [Hgt | Hle].
  - rewrite Ht. split; [lia|]. split; [exact Hl|reflexivity].
  - destruct (ltb (FREQ p) (of_Z 0)) eqn:Hneg.
    + rewrite Ht1. split; [lia|]. split; [exact Hl1|reflexivity].
    + split; [lia|]. split; [exact Hneg|reflexivity].
Qed.

Lemma saturate_parameters_frequency_witness :
  let p := requested_at_128 (of_Z 300) in
  let q := saturate_parameters p in
  0 <= trunc (FREQ q) <= freq_max / (128 / 16)
  /\ ltb (FREQ q) (of_Z 0) = false
  /\ SAMPLES q = of_Z 128.
Proof.
  apply (saturate_parameters_frequency (requested_at_128 (of_Z 300)) 128).
  - simpl. do 3 right. left. reflexivity.
  - reflexivity.
  - vm_compute. split; [discriminate|reflexivity].
Defined.

Lemma clamp_Vref_again (x : float) :
  let y := if gtb x Vref then Vref
           else if ltb x (of_Z 0) then of_Z 0 else x in
  (if gtb y Vref then Vref else if ltb y (of_Z 0) then of_Z 0 else y) = y.
Proof.
  cbv zeta. destruct (clamp_Vref_bounds x) as (H1 & H2 & _).
  cbv zeta in H1, H2. rewrite H1, H2. reflexivity.
Qed.

(** X15: at a sample count among 16, 32, 64, 128 a second saturation pass
    changes nothing: the pass gives back its own result. *)
Theorem saturate_parameters_again (p : params) (N : Z) :
  In N sample_size ->
  SAMPLES p = of_Z N ->
  saturate_parameters (saturate_parameters p) = saturate_parameters p.
Proof.
  intros HN HS.
  destruct (freq_bound_facts N HN) as (Hb & _ & Hu & Hl & _ & Hu1 & Hl1 & HlN).
  cbv zeta in Hb, Hu, Hl.
  assert (SAMPLES (saturate_parameters p) = of_Z N) as HSq.
  { destruct (saturate_parameters_fields p) as (_ & _ & _ & ->).
    rewrite HS, HlN. reflexivity. }
  destruct (saturate_parameters_fields (saturate_parameters p))
    as (HF & HA & HO & HSS).
  apply params_eq.
  - rewrite HF, (saturate_freq_valid _ N HN HSq).
    destruct (saturate_parameters_fields p) as (-> & _).
    rewrite (saturate_freq_valid p N HN HS).
    destruct (to_uint16 (FREQ p) >? freq_max / (N / 16)) eqn:E1.
    + rewrite Hu, Hl.
      destruct (Z.gtb_spec (freq_max / (N / 16)) (freq_max / (N / 16)));
        [lia|reflexivity].
    + destruct (ltb (FREQ p) (of_Z 0)) eqn:E2.
      * rewrite Hu1, Hl1.
        destruct (Z.gtb_spec 1 (freq_max / (N / 16))); [lia|reflexivity].
      * rewrite E1, E2. reflexivity.
  - rewrite HA. destruct (saturate_parameters_fields p) as (_ & -> & _).
    apply clamp_Vref_again.
  - rewrite HO. destruct (saturate_parameters_fields p) as (_ & _ & -> & _).
    apply clamp_Vref_again.
  - rewrite HSS, HSq, HlN. reflexivity.
Qed.

Lemma saturate_parameters_again_witness :
  let p := {| FREQ := of_Z 300; AMPLITUDE := of_Z 7; OFFSET := of_Z (-1);
              SAMPLES := of_Z 64 |} in
  saturate_parameters (saturate_parameters p) = saturate_parameters p.
Proof.
  apply (saturate_parameters_again
           {| FREQ := of_Z 300; AMPLITUDE := of_Z 7; OFFSET := of_Z (-1);
              SAMPLES := of_Z 64 |} 64).
  - simpl. right. right. left. reflexivity.
  - reflexivity.
Defined.

(** ** Integral frequencies *)

Lemma same_float_eq (x y : float) : same_float x y = true -> x = y.
Proof.
  destruct x as [a | a | | a m e], y as [b | b | | b n f]; simpl;
    try discriminate; try reflexivity.
  - intros H. apply Bool.eqb_prop in H. congruence.
  - intros H. apply Bool.eqb_prop in H. congruence.
  - intros H. apply andb_prop in H as [H He]. apply andb_prop in H as [Hs Hm].
    apply Bool.eqb_prop in Hs. apply Pos.eqb_eq in Hm. apply Z.eqb_eq in He.
    congruence.
Qed.

Lemma freq_steps_ok_all :
  forallb (fun m =>
    forallb (fun e => forallb (freq_step_ok m e) (seqZ 0 1001)) [-1; 0; 1])
    [10; 1]
  = true.
Proof. vm_compute. reflexivity. Qed.

Lemma freq_step_exact (m e k : Z) :
  m = 10 \/ m = 1 -> -1 <= e <= 1 -> 0 <= k <= 1000 ->
  add (of_Z k) (mul (of_Z m) (of_Z e)) = of_Z (k + m * e).
Proof.
  intros Hm He Hk. apply same_float_eq.
  pose proof freq_steps_ok_all as Hall.
  rewrite forallb_forall in Hall.
  assert (In m [10; 1]) as Hmi by (simpl; lia).
  specialize (Hall m Hmi). rewrite forallb_forall in Hall.
  assert (In e [-1; 0; 1]) as Hei by (simpl; lia).
  specialize (Hall e Hei). rewrite forallb_forall in Hall.
  assert (In k (seqZ 0 1001)) as Hki.
  { apply list_elem_of_In, elem_of_seqZ. lia. }
  specialize (Hall k Hki). unfold freq_step_ok in Hall. exact Hall.
Qed.

Lemma edit_field_freq (s : state) :
  SW2_state s = 1 \/ SW2_state s = 2 ->
  FREQ (wave_parameters (edit_field s))
  = add (FREQ (wave_parameters s))
      (mul (of_Z (freq_multiplier (SW2_state s))) (of_Z (enc_value s))).
Proof.
  intros [E | E]; unfold edit_field, add_step; rewrite E.
  - destruct (waveform _ =? DC); reflexivity.
  - reflexivity.
Qed.

Lemma edit_field_freq_at (s : state) (k : Z) :
  SW2_state s = 1 \/ SW2_state s = 2 ->
  -1 <= enc_value s <= 1 ->
  0 <= k <= 1000 ->
  FREQ (wave_parameters s) = of_Z k ->
  FREQ (wave_parameters (edit_field s))
  = of_Z (k + freq_multiplier (SW2_state s) * enc_value s).
Proof.
  intros Hf He Hk HF. rewrite edit_field_freq, HF; [|done].
  apply freq_step_exact; [|done..].
  destruct Hf as [-> | ->]; [left|right]; reflexivity.
Qed.

(** At a frequency field the cursor and the kind stay, unless the kind is
    DC. *)
Lemma edit_field_freq_stays (s : state) :
  SW2_state s = 1 \/ SW2_state s = 2 ->
  waveform s <> DC ->
  SW2_state (edit_field s) = SW2_state s
  /\ waveform (edit_field s) = waveform s.
Proof.
  intros Hf Hdc. unfold edit_field, add_step.
  destruct Hf as [E | E]; rewrite E; [|done].
  cbn [set_wave_parameters set_float_pgm_read waveform].
  destruct (Z.eqb_spec (waveform s) DC); done.
Qed.

(** X16: at the two frequency fields a step changes an integral frequency
    by exactly 10 (field 1) or 1 (field 2) times the step, with no rounding:
    from k Hz, for k from 0 to 1000, the frequency becomes k + 10 e or
    k + e Hz. *)
Theorem edit_field_frequency_exact (s : state) (k : Z) :
  SW2_state s = 1 \/ SW2_state s = 2 ->
  -1 <= enc_value s <= 1 ->
  0 <= k <= 1000 ->
  FREQ (wave_parameters s) = of_Z k ->
  FREQ (wave_parameters (edit_field s))
  = of_Z (k + freq_multiplier (SW2_state s) * enc_value s).
Proof. apply edit_field_freq_at. Qed.

Lemma edit_field_frequency_exact_witness :
  let s := set_enc_value (-1) (set_SW2_state 1 configuring) in
  FREQ (wave_parameters (edit_field s))
  = of_Z (50 + freq_multiplier (SW2_state s) * enc_value s).
Proof.
  apply (edit_field_frequency_exact
           (set_enc_value (-1) (set_SW2_state 1 configuring)) 50).
  - left. reflexivity.
  - vm_compute. split; discriminate.
  - lia.
  - reflexivity.
Defined.

(** X17: a step up followed by a step down at a frequency field gives the
    frequency back, for an integral frequency from 0 to 990 Hz and a kind
    other than DC (for DC the first step at field 1 moves the cursor). *)
Theorem edit_field_frequency_round_trip (s : state) (k : Z) :
  SW2_state s = 1 \/ SW2_state s = 2 ->
  waveform s <> DC ->
  0 <= k <= 990 ->
  FREQ (wave_parameters s) = of_Z k ->
  let up := edit_field (set_enc_value 1 s) in
  let down := edit_field (set_enc_value (-1) up) in
  SW2_state down = SW2_state s
  /\ FREQ (wave_parameters down) = FREQ (wave_parameters s).
Proof.
  intros Hf Hdc Hk HF. cbv zeta.
  set (s1 := set_enc_value 1 s).
  destruct (edit_field_freq_stays s1 Hf Hdc) as [Hc1 Hw1].
  pose proof (edit_field_freq_at s1 k Hf ltac:(simpl; lia) ltac:(lia) HF)
    as HF1.
  set (s2 := set_enc_value (-1) (edit_field s1)).
  assert (SW2_state s2 = 1 \/ SW2_state s2 = 2) as Hf2.
  { subst s2. simpl. rewrite Hc1. exact Hf. }
  assert (waveform s2 <> DC) as Hdc2.
  { subst s2. simpl. rewrite Hw1. exact Hdc. }
  destruct (edit_field_freq_stays s2 Hf2 Hdc2) as [Hc2 _].
  assert (0 <= k + freq_multiplier (SW2_state s1) * enc_value s1 <= 1000)
    as Hk1.
  { simpl. unfold freq_multiplier. destruct Hf as [-> | ->]; simpl; lia. }
  pose proof (edit_field_freq_at s2 _ Hf2 ltac:(simpl; lia) Hk1 HF1) as HF2.
  split.
  - rewrite Hc2. subst s2. simpl. exact Hc1.
  - rewrite HF2, HF. f_equal.
    assert (SW2_state s2 = SW2_state s1) as ->.
    { subst s2. simpl. exact Hc1. }
    simpl. lia.
Qed.

Lemma edit_field_frequency_round_trip_witness :
  let s := set_SW2_state 1 configuring in
  let up := edit_field (set_enc_value 1 s) in
  let down := edit_field (set_enc_value (-1) up) in
  SW2_state down = SW2_state s
  /\ FREQ (wave_parameters down) = FREQ (wave_parameters s).
Proof.
  apply (edit_field_frequency_round_trip (set_SW2_state 1 configuring) 50).
  - left. reflexivity.
  - vm_compute. discriminate.
  - lia.
  - reflexivity.
Defined.

(** ** The interval between two samples *)

Lemma interval_range_ok_all :
  forallb (fun N =>
    forallb (interval_range_ok N) (seqZ 1 (freq_max / (N / 16))))
    sample_size
  = true.
Proof. vm_compute. reflexivity. Qed.

Lemma update_freq_interval_of (s : state) :
  sample_interval (update_freq s)
  = interval_of (FREQ (wave_parameters s)) (SAMPLES (wave_parameters s)).
Proof. reflexivity. Qed.

(** X18: for every integral frequency that the saturation pass allows at
    the sample count N (1 to 568 / (N / 16), N among 16, 32, 64, 128), the
    interval that [update_freq] computes lies between 108 and 61562
    microseconds. *)
Theorem update_freq_range (s : state) (k N : Z) :
  In N sample_size ->
  1 <= k <= freq_max / (N / 16) ->
  FREQ (wave_parameters s) = of_Z k ->
  SAMPLES (wave_parameters s) = of_Z N ->
  108 <= sample_interval (update_freq s) <= 61562.
Proof.
  intros HN Hk Hf Hs.
  pose proof interval_range_ok_all as Hall.
  rewrite forallb_forall in Hall. specialize (Hall N HN).
  rewrite forallb_forall in Hall.
  assert (In k (seqZ 1 (freq_max / (N / 16)))) as Hin.
  { apply list_elem_of_In, elem_of_seqZ. lia. }
  specialize (Hall k Hin). unfold interval_range_ok in Hall.
  apply andb_prop in Hall as [Hlo Hhi].
  apply Z.leb_le in Hlo, Hhi.
  rewrite update_freq_interval_of, Hf, Hs. split; [exact Hlo|exact Hhi].
Qed.

Lemma update_freq_range_witness :
  108 <= sample_interval (update_freq power_on) <= 61562.
Proof.
  apply (update_freq_range power_on 50 32).
  - simpl. right. left. reflexivity.
  - vm_compute. split; discriminate.
  - reflexivity.
  - reflexivity.
Defined.

(** ** The display *)

(** X19: whatever the kind of refresh, [update_display] puts the cursor of
    the value column on the rows 32, 40, 48, 56 in that order and writes
    there, row by row, the frequency, the amplitude, the offset and the
    sample count; for the kind DC the rows 32 and 40, those of frequency
    and amplitude, get eight blanks instead, and the rows 48 and 56 the
    offset and the sample count. *)
Theorem update_display_values (select : Z) (s : state) :
  value_cells (update_display select s)
  = (if waveform s =? DC then
       [(32, println "        "); (40, println "        ");
        (48, print_float (OFFSET (wave_parameters s)));
        (56, print_float (SAMPLES (wave_parameters s)))]
     else
       [(32, print_float (FREQ (wave_parameters s)));
        (40, print_float (AMPLITUDE (wave_parameters s)));
        (48, print_float (OFFSET (wave_parameters s)));
        (56, print_float (SAMPLES (wave_parameters s)))])
  /\ value_rows (update_display select s) = [32; 40; 48; 56]
  /\ printed_values (update_display select s)
     = (if waveform s =? DC then
          [OFFSET (wave_parameters s); SAMPLES (wave_parameters s)]
        else
          [FREQ (wave_parameters s); AMPLITUDE (wave_parameters s);
           OFFSET (wave_parameters s); SAMPLES (wave_parameters s)])
  /\ (waveform s = DC ->
      filter (fun t => t = "        ") (printed_texts (update_display select s))
      = ["        "; "        "]).
Proof.
  unfold update_display, display_lines, display_line.
  destruct (select =? 1), (Z.eqb_spec (waveform s) DC) as [E | E];
    repeat split; try reflexivity; try (intros; congruence);
    intros _; rewrite E; reflexivity.
Qed.

(** X20: a refresh of the values only ([DISPLAY_VALUES]) prints none of
    the labels: for a kind other than DC the texts printed are the name of
    the kind and the four units. *)
Theorem update_display_values_only (s : state) :
  known_kind (waveform s) ->
  waveform s <> DC ->
  printed_texts (update_display DISPLAY_VALUES s)
  = [pgm_read_text wave_text_1 (waveform s); " Hz  "; " V   "; " V   "; "     "]
  /\ Forall (fun t => t <> "Freq: " /\ t <> "Amp : " /\ t <> "Voff: "
                      /\ t <> "Samp: " /\ t <> "Wave: ")
       (printed_texts (update_display DISPLAY_VALUES s)).
Proof.
  intros Hk Hdc.
  assert (printed_texts (update_display DISPLAY_VALUES s)
          = [pgm_read_text wave_text_1 (waveform s);
             " Hz  "; " V   "; " V   "; "     "]) as ->.
  { unfold update_display, display_lines, display_line.
    destruct (Z.eqb_spec (waveform s) DC); [done|reflexivity]. }
  split; [reflexivity|].
  destruct Hk as [E | [E | [E | E]]]; [| | |contradiction];
    rewrite E; repeat constructor; discriminate.
Qed.

Lemma update_display_values_only_witness :
  printed_texts (update_display DISPLAY_VALUES configuring)
  = [pgm_read_text wave_text_1 (waveform configuring);
     " Hz  "; " V   "; " V   "; "     "]
  /\ Forall (fun t => t <> "Freq: " /\ t <> "Amp : " /\ t <> "Voff: "
                      /\ t <> "Samp: " /\ t <> "Wave: ")
       (printed_texts (update_display DISPLAY_VALUES configuring)).
Proof.
  apply (update_display_values_only configuring).
  - left. reflexivity.
  - vm_compute. discriminate.
Defined.

(** ** What holds in every state the sketch reaches *)

Lemma SW2_cases (z : Z) :
  z = 0 \/ z = 1 \/ z = 2 \/ z = 3 \/ z = 4 \/ z = 5 \/ z = 6 \/ z = 7
  \/ z = 8 \/ z = 9 \/ (z < 0 \/ 9 < z).
Proof. lia. Qed.

Lemma edit_field_kind (s : state) :
  known_kind (waveform s) -> known_kind (waveform (edit_field s)).
Proof.
  intros Hk.
  destruct (SW2_cases (SW2_state s))
    as [E | [E | [E | [E | [E | [E | [E | [E | [E | [E | E]]]]]]]]]].
  11: { rewrite edit_field_default; [exact Hk|exact E]. }
  all: unfold edit_field, add_step; rewrite E.
  2: { destruct (waveform _ =? DC); exact Hk. }
  2-9: exact Hk.
  cbn [set_waveform set_float_pgm_read waveform float_pgm_read enc_value].
  change (to_uint8 (pgm_read_float multipliers 0)) with 1.
  rewrite Z.mul_1_l, land_3_mod_4.
  pose proof (Z.mod_pos_bound (waveform s + enc_value s) 4 ltac:(lia)) as Hb.
  assert (Int.u8 ((waveform s + enc_value s) mod 4)
          = (waveform s + enc_value s) mod 4) as ->.
  { unfold Int.u8, Int.wrap. apply Z.mod_small. lia. }
  unfold known_kind, SINE, RAMP, SQUARE, DC. lia.
Qed.

(** The sample counts that field 9 and the saturation pass produce from
    0, 16, 32, 64, 128 are among these again. *)
Lemma reachable_samples_closed (v enc : Z) :
  In v reachable_samples ->
  In (if ltb (of_Z v) (of_Z 16) then of_Z 16 else of_Z v)
     (map of_Z reachable_samples)
  /\ In (to_uint16 (of_Z v)) reachable_samples
  /\ In (of_Z (Z.land
                 (if enc =? 1 then Int.u16 (Z.shiftl (to_uint16 (of_Z v)) 1)
                  else if enc =? -1 then Z.shiftr (to_uint16 (of_Z v)) 1
                  else to_uint16 (of_Z v)) 240))
        (map of_Z reachable_samples).
Proof.
  intros Hv. simpl in Hv.
  destruct Hv as [<- | [<- | [<- | [<- | [<- | []]]]]];
    destruct (enc =? 1), (enc =? -1); vm_compute; tauto.
Qed.

Lemma in_map_of_Z (f : float) :
  In f (map of_Z reachable_samples) ->
  exists v, In v reachable_samples /\ f = of_Z v.
Proof.
  intros H. apply in_map_iff in H as (v & <- & Hv). exists v. done.
Qed.

Lemma edit_field_samples (s : state) :
  In (SAMPLES (wave_parameters s)) (map of_Z reachable_samples) ->
  In (SAMPLES (wave_parameters (edit_field s))) (map of_Z reachable_samples).
Proof.
  intros Hs.
  destruct (SW2_cases (SW2_state s))
    as [E | [E | [E | [E | [E | [E | [E | [E | [E | [E | E]]]]]]]]]].
  11: { rewrite edit_field_default; [exact Hs|exact E]. }
  all: unfold edit_field, add_step; rewrite E.
  1: exact Hs.
  1: { destruct (waveform _ =? DC); exact Hs. }
  1-7: exact Hs.
  cbn [set_wave_parameters set_float_pgm_read wave_parameters enc_value
       SAMPLES set_SAMPLES].
  destruct (in_map_of_Z _ Hs) as (v & Hv & ->).
  apply (reachable_samples_closed v (enc_value s) Hv).
Qed.

Section Reachable.

Variable sin : float -> float.

Lemma calculating_state (inp : inputs) (s : state) :
  SW1_state s = CALCULATING ->
  known_kind (waveform s) ->
  waveform (loop sin inp s) = waveform s
  /\ wave_parameters (loop sin inp s) = wave_parameters s
  /\ samples_uint (loop sin inp s) = to_uint16 (SAMPLES (wave_parameters s))
  /\ wave (loop sin inp s)
     = wave_calc sin (wave s) (to_uint16 (SAMPLES (wave_parameters s)))
         (AMPLITUDE (wave_parameters s)) (OFFSET (wave_parameters s))
         (waveform s).
Proof.
  intros Hmode Hk. unfold loop. rewrite Hmode.
  change (CALCULATING =? RUNNING) with false.
  change (CALCULATING =? CONFIGURING) with false.
  change (CALCULATING =? CALCULATING) with true. cbv iota.
  cbn [set_samples_uint waveform wave wave_parameters samples_uint].
  assert ((waveform s =? SINE) || (waveform s =? RAMP)
          || (waveform s =? SQUARE) || (waveform s =? DC) = true) as ->.
  { destruct Hk as [E | [E | [E | E]]]; rewrite E; reflexivity. }
  repeat split; reflexivity.
Qed.

Lemma running_state (inp : inputs) (s : state) :
  SW1_state s = RUNNING ->
  waveform (loop sin inp s) = waveform s
  /\ wave_parameters (loop sin inp s) = wave_parameters s
  /\ samples_uint (loop sin inp s) = samples_uint s
  /\ wave (loop sin inp s) = wave s.
Proof.
  intros Hmode. unfold loop. rewrite Hmode. simpl.
  destruct (_ >=? _); simpl; done.
Qed.

Lemma other_state (inp : inputs) (s : state) :
  SW1_state s <> RUNNING -> SW1_state s <> CONFIGURING ->
  SW1_state s <> CALCULATING ->
  loop sin inp s = set_SW1_state 0 s.
Proof.
  intros H0 H1 H2. unfold loop.
  destruct (Z.eqb_spec (SW1_state s) RUNNING); [done|].
  destruct (Z.eqb_spec (SW1_state s) CONFIGURING); [done|].
  destruct (Z.eqb_spec (SW1_state s) CALCULATING); done.
Qed.

Lemma well_formed_loop (inp : inputs) (s : state) :
  well_formed s -> well_formed (loop sin inp s).
Proof.
  intros (Hk & Hlen & Hall & Hs & Hu). unfold well_formed.
  destruct (Z.eq_dec (SW1_state s) RUNNING) as [E0 | E0].
  { destruct (running_state inp s E0) as (-> & -> & -> & ->). done. }
  destruct (Z.eq_dec (SW1_state s) CALCULATING) as [E2 | E2].
  { destruct (calculating_state inp s E2 Hk) as (-> & -> & -> & ->).
    split; [done|]. split; [by rewrite wave_calc_length|].
    split; [|split; [done|]].
    - apply wave_calc_loop_Forall; [apply saturate_range|done].
    - destruct (in_map_of_Z _ Hs) as (v & Hv & ->).
      apply (reachable_samples_closed v 0 Hv). }
  destruct (Z.eq_dec (SW1_state s) CONFIGURING) as [E1 | E1].
  2: { rewrite other_state; done. }
  rewrite loop_configuring; [|done]. cbv zeta.
  set (r := read_Encoder (pin_CLK inp) (pin_DATA inp) (refresh inp s)).
  destruct (edit_field_frame (set_enc_value r.1 r.2))
    as (_ & -> & _ & -> & _).
  destruct (refresh_frame inp s) as (_ & _ & Hw & Hwv & _ & Hn & _).
  assert (In (SAMPLES (wave_parameters (refresh inp s)))
             (map of_Z reachable_samples)) as Hs'.
  { unfold refresh. destruct (_ >=? _); [|done].
    cbn [set_last_sample_time2 set_wave_parameters wave_parameters].
    destruct (saturate_parameters_fields (wave_parameters s))
      as (_ & _ & _ & ->).
    destruct (in_map_of_Z _ Hs) as (v & Hv & ->).
    apply (reachable_samples_closed v 0 Hv). }
  split; [|split; [|split; [|split]]].
  - apply edit_field_kind. simpl. subst r. simpl. rewrite Hw. exact Hk.
  - subst r. simpl. rewrite Hwv. exact Hlen.
  - subst r. simpl. rewrite Hwv. exact Hall.
  - apply edit_field_samples. subst r. exact Hs'.
  - subst r. simpl. rewrite Hn. exact Hu.
Qed.

Lemma well_formed_step (e : event) (s : state) :
  well_formed s -> well_formed (step sin s e).
Proof.
  destruct e as [inp | |]; [apply well_formed_loop|done|done].
Qed.

Lemma well_formed_run (es : list event) :
  forall s, well_formed s -> well_formed (run sin s es).
Proof.
  induction es as [|e es IH]; intros s Hs; [exact Hs|].
  apply (IH (step sin s e)). by apply well_formed_step.
Qed.

End Reachable.

Lemma well_formed_setup (now now2 : Z) (clk : bool) :
  well_formed (setup now now2 clk).
Proof.
  unfold well_formed, setup.
  cbn [waveform wave wave_parameters samples_uint SAMPLES].
  split; [left; reflexivity|]. split; [reflexivity|].
  split; [|split; [right; right; left; reflexivity|left; reflexivity]].
  apply Forall_replicate. lia.
Qed.

(** X21: in every state the sketch reaches from [setup], by iterations of
    [loop] and presses of the two keys in any order, the kind is one of the
    four, the table has its 128 entries, all of them in 0..4095, and the
    sample count, as edited and as in use, is one of 0, 16, 32, 64, 128: a
    calculating pass never asks [wave_calc] for more points than the table
    holds. *)
Theorem reachable_well_formed (sin : float -> float) (now now2 : Z)
    (clk : bool) (es : list event) :
  let s := run sin (setup now now2 clk) es in
  well_formed s
  /\ to_uint16 (SAMPLES (wave_parameters s)) <= buffer_size
  /\ samples_uint s <= buffer_size.
Proof.
  cbv zeta.
  pose proof (well_formed_run sin es _ (well_formed_setup now now2 clk))
    as Hwf.
  split; [exact Hwf|].
  destruct Hwf as (_ & _ & _ & Hs & Hu). split.
  - destruct (in_map_of_Z _ Hs) as (v & Hv & ->).
    simpl in Hv. unfold buffer_size.
    destruct Hv as [<- | [<- | [<- | [<- | [<- | []]]]]]; vm_compute;
      discriminate.
  - simpl in Hu. unfold buffer_size. lia.
Qed.

(** ** The timer and the keys *)

Lemma u32_sub_add (t d : Z) :
  0 <= d < 2 ^ 32 -> Int.u32 (Int.u32 (t + d) - t) = d.
Proof.
  intros Hd. unfold Int.u32, Int.wrap.
  rewrite Zminus_mod_idemp_l.
  replace (t + d - t) with d by lia. apply Z.mod_small. exact Hd.
Qed.

(** X22: the test of the running mode is on the time gone by modulo 2^32,
    so it is right across the wrap of [micros()]: when [d] microseconds
    (less than 2^32) have gone by since the last sample, the next sample is
    given to the converter if [d] has reached the sample interval, and
    nothing at all changes if it has not. *)
Theorem running_timer_wrap (sin : float -> float) (inp : inputs) (s : state)
    (d : Z) :
  SW1_state s = RUNNING ->
  0 <= d < 2 ^ 32 ->
  micros_1 inp = Int.u32 (last_sample_time s + d) ->
  (sample_interval s <= d ->
   dac (loop sin inp s)
   = wave_at (wave s) (sample_index (i s) (samples_uint s)) :: dac s
   /\ last_sample_time (loop sin inp s) = micros_2 inp)
  /\ (d < sample_interval s -> loop sin inp s = s).
Proof.
  intros Hmode Hd Hm. split.
  - intros Hdue. rewrite loop_running_due; [done|done|].
    rewrite Hm, u32_sub_add; done.
  - intros Hearly. unfold loop. rewrite Hmode, Hm, u32_sub_add; [|done].
    simpl. destruct (Z.geb_spec d (sample_interval s)); [lia|reflexivity].
Qed.

Lemma running_timer_wrap_witness :
  let s := set_last_sample_time (2 ^ 32 - 100)
             (run sin_poly power_on [quiet 2000]) in
  let inp := {| micros_1 := 600; micros_2 := 604;
                pin_CLK := true; pin_DATA := true |} in
  (sample_interval s <= 700 ->
   dac (loop sin_poly inp s)
   = wave_at (wave s) (sample_index (i s) (samples_uint s)) :: dac s
   /\ last_sample_time (loop sin_poly inp s) = micros_2 inp)
  /\ (700 < sample_interval s -> loop sin_poly inp s = s).
Proof.
  apply (running_timer_wrap sin_poly _
           (set_last_sample_time (2 ^ 32 - 100)
              (run sin_poly power_on [quiet 2000])) 700).
  - reflexivity.
  - lia.
  - reflexivity.
Defined.

Lemma set_SW1_state_twice (a b : Z) (s : state) :
  set_SW1_state a (set_SW1_state b s) = set_SW1_state a s.
Proof. reflexivity. Qed.

Lemma presses_SW1 (sin : float -> float) (n : nat) :
  forall s, 0 <= SW1_state s < 256 ->
  set_SW1_state RUNNING (run sin s (replicate n PressSW1))
  = set_SW1_state RUNNING s
  /\ SW1_state (run sin s (replicate n PressSW1))
     = Int.u8 (SW1_state s + Z.of_nat n).
Proof.
  induction n as [|n IH]; intros s Hs.
  - simpl. rewrite Z.add_0_r. split; [reflexivity|].
    unfold Int.u8, Int.wrap. symmetry. apply Z.mod_small.
    change (2 ^ 8) with 256. lia.
  - cbn [replicate run foldl step]. fold (run sin).
    assert (0 <= SW1_state (SW1_interrupt s) < 256) as Hs'.
    { simpl. unfold Int.u8, Int.wrap. change (2 ^ 8) with 256.
      apply Z.mod_pos_bound. lia. }
    destruct (IH (SW1_interrupt s) Hs') as [Hrest Hval].
    unfold run in Hrest, Hval |- *. rewrite Hrest, Hval. split.
    + apply set_SW1_state_twice.
    + simpl. unfold Int.u8, Int.wrap. rewrite Zplus_mod_idemp_l.
      f_equal. lia.
Qed.

(** X23: when the presses of the mode key counted since the last iteration
    (the key is not debounced) leave the mode counter above 2, the next
    iteration only sets the mode back to RUNNING: there is no calculating
    pass, and the table, the sample interval and the parameters, edited or
    not, are as they were. *)
Theorem stray_presses_reset (sin : float -> float) (inp : inputs)
    (s : state) (n : nat) :
  0 <= SW1_state s < 256 ->
  3 <= Int.u8 (SW1_state s + Z.of_nat n) ->
  run sin s (replicate n PressSW1 ++ [Iterate inp]) = set_SW1_state RUNNING s.
Proof.
  intros Hs Hv. unfold run. rewrite foldl_app. fold (run sin s (replicate n PressSW1)).
  destruct (presses_SW1 sin n s Hs) as [Hrest Hval].
  cbn [foldl step]. rewrite other_state.
  - exact Hrest.
  - rewrite Hval. unfold RUNNING. lia.
  - rewrite Hval. unfold CONFIGURING. lia.
  - rewrite Hval. unfold CALCULATING. lia.
Qed.

Lemma stray_presses_reset_witness :
  run sin_poly configuring
    (replicate 2 PressSW1
     ++ [Iterate {| micros_1 := 4000; micros_2 := 4004;
                    pin_CLK := true; pin_DATA := true |}])
  = set_SW1_state RUNNING configuring.
Proof.
  apply (stray_presses_reset sin_poly _ configuring 2).
  - vm_compute. split; [discriminate|reflexivity].
  - vm_compute. discriminate.
Defined.

(** ** The waveform generator, for a kind it does not know *)

Lemma wave_temp_unknown (sin : float -> float) c points offset wave k temp :
  ~ known_kind wave -> wave_temp sin c points offset wave k temp = temp.
Proof.
  intros Hk. unfold wave_temp, known_kind in *.
  destruct (Z.eqb_spec wave SINE); [tauto|].
  destruct (Z.eqb_spec wave RAMP); [tauto|].
  destruct (Z.eqb_spec wave SQUARE); [tauto|].
  destruct (Z.eqb_spec wave DC); [tauto|reflexivity].
Qed.

Lemma wave_calc_loop_unknown (sin : float -> float) n :
  forall k c points offset wave array (j : nat),
  0 <= k -> ~ known_kind wave ->
  (Z.to_nat k <= j < Z.to_nat k + n)%nat ->
  (j < length array)%nat ->
  wave_calc_loop sin n k c points offset wave array 0 !! j = Some 0.
Proof.
  induction n as [|n IH]; intros k c points offset wave array j Hk Hw Hj Hlen;
    simpl; [lia|].
  rewrite wave_temp_unknown; [|done].
  destruct (decide (j = Z.to_nat k)) as [->|Hne].
  - rewrite wave_calc_loop_outside; [|lia|lia].
    apply list_lookup_insert_eq. done.
  - apply IH; [lia|done|lia|]. by rewrite length_insert.
Qed.

(** X24: for a kind that is none of the four, [wave_calc] computes
    nothing: [temp] keeps its initial 0 and every entry below [points] is
    set to 0. *)
Theorem wave_calc_unknown_kind (sin : float -> float) (array : list Z)
    (points : Z) (amplitude offset : float) (wave : Z) (j : nat) :
  ~ known_kind wave ->
  (j < Z.to_nat points)%nat ->
  (j < length array)%nat ->
  wave_calc sin array points amplitude offset wave !! j = Some 0.
Proof.
  intros Hk Hj Hlen. unfold wave_calc.
  apply wave_calc_loop_unknown; [lia|done|simpl; lia|done].
Qed.

Lemma wave_calc_unknown_kind_witness :
  wave_calc sin_poly (wave configuring) 16 Vref Vref 7 !! 5%nat = Some 0.
Proof.
  apply (wave_calc_unknown_kind sin_poly (wave configuring) 16 Vref Vref 7 5).
  - unfold known_kind, SINE, RAMP, SQUARE, DC. lia.
  - vm_compute. lia.
  - vm_compute. lia.
Defined.

Lemma update_display_values_witness :
  let s := set_waveform DC configuring in
  value_cells (update_display DISPLAY_ALL s)
  = (if waveform s =? DC then
       [(32, println "        "); (40, println "        ");
        (48, print_float (OFFSET (wave_parameters s)));
        (56, print_float (SAMPLES (wave_parameters s)))]
     else
       [(32, print_float (FREQ (wave_parameters s)));
        (40, print_float (AMPLITUDE (wave_parameters s)));
        (48, print_float (OFFSET (wave_parameters s)));
        (56, print_float (SAMPLES (wave_parameters s)))])
  /\ value_rows (update_display DISPLAY_ALL s) = [32; 40; 48; 56]
  /\ printed_values (update_display DISPLAY_ALL s)
     = (if waveform s =? DC then
          [OFFSET (wave_parameters s); SAMPLES (wave_parameters s)]
        else
          [FREQ (wave_parameters s); AMPLITUDE (wave_parameters s);
           OFFSET (wave_parameters s); SAMPLES (wave_parameters s)])
  /\ (waveform s = DC ->
      filter (fun t => t = "        ")
        (printed_texts (update_display DISPLAY_ALL s))
      = ["        "; "        "]).
Proof.
  exact (update_display_values DISPLAY_ALL (set_waveform DC configuring)).
Defined.

(** ** The clamp of the frequency and when it runs *)

Lemma edit_field_FREQ_other (s : state) :
  SW2_state s <> 1 -> SW2_state s <> 2 ->
  FREQ (wave_parameters (edit_field s)) = FREQ (wave_parameters s).
Proof.
  intros H1 H2.
  destruct (SW2_cases (SW2_state s))
    as [E | [E | [E | [E | [E | [E | [E | [E | [E | [E | E]]]]]]]]]];
    [| done | done | | | | | | | |].
  9: { rewrite edit_field_default; [reflexivity|exact E]. }
  all: unfold edit_field, add_step; rewrite E; reflexivity.
Qed.

(** The frequency after an iteration in the configuring mode, at a field
    that does not edit it: the saturated one if 500 ms have gone by since
    the last pass, the same as before otherwise. *)
Lemma loop_configuring_FREQ (sin : float -> float) (inp : inputs)
    (s : state) :
  SW1_state s = CONFIGURING ->
  SW2_state s <> 1 -> SW2_state s <> 2 ->
  FREQ (wave_parameters (loop sin inp s))
  = if Int.u32 (micros_1 inp - last_sample_time2 s) >=? 500000
    then FREQ (saturate_parameters (wave_parameters s))
    else FREQ (wave_parameters s).
Proof.
  intros Hmode H1 H2. rewrite loop_configuring; [|done]. cbv zeta.
  set (r := read_Encoder (pin_CLK inp) (pin_DATA inp) (refresh inp s)).
  destruct (refresh_frame inp s) as (_ & Hc & _).
  rewrite edit_field_FREQ_other.
  - subst r. cbn [set_enc_value wave_parameters].
    change (wave_parameters
              (read_Encoder (pin_CLK inp) (pin_DATA inp) (refresh inp s)).2)
      with (wave_parameters (refresh inp s)).
    unfold refresh. destruct (_ >=? _); reflexivity.
  - subst r. cbn [set_enc_value SW2_state].
    change (SW2_state
              (read_Encoder (pin_CLK inp) (pin_DATA inp) (refresh inp s)).2)
      with (SW2_state (refresh inp s)).
    rewrite Hc. exact H1.
  - subst r. cbn [set_enc_value SW2_state].
    change (SW2_state
              (read_Encoder (pin_CLK inp) (pin_DATA inp) (refresh inp s)).2)
      with (SW2_state (refresh inp s)).
    rewrite Hc. exact H2.
Qed.

(** C6, as the code has it: at N samples per cycle, N among 16, 32, 64,
    128, the bound of the clamp is 568 / (N / 16), 71 at 128 samples.  The
    saturation pass sets a frequency whose integer part is above the bound
    to exactly the bound, leaves a frequency that is not below 0 and whose
    integer part is not above the bound as it is, and sets one below 0 to
    1.  The pass is not run before the interval is computed: it runs in an
    iteration of the configuring mode when 500 ms have gone by since the
    last pass, and in no other iteration. *)
Theorem saturate_clamps_frequency (sin : float -> float) (inp : inputs)
    (s : state) (N : Z) :
  In N sample_size ->
  SAMPLES (wave_parameters s) = of_Z N ->
  0 <= trunc (FREQ (wave_parameters s)) < 65536 ->
  let p := wave_parameters s in
  let b := freq_max / (N / 16) in
  (b < trunc (FREQ p) -> FREQ (saturate_parameters p) = of_Z b)
  /\ (trunc (FREQ p) <= b -> ltb (FREQ p) (of_Z 0) = false ->
      FREQ (saturate_parameters p) = FREQ p)
  /\ (trunc (FREQ p) <= b -> ltb (FREQ p) (of_Z 0) = true ->
      FREQ (saturate_parameters p) = of_Z 1)
  /\ (N = 128 -> b = 71)
  /\ (SW1_state s = CONFIGURING -> SW2_state s <> 1 -> SW2_state s <> 2 ->
      FREQ (wave_parameters (loop sin inp s))
      = if Int.u32 (micros_1 inp - last_sample_time2 s) >=? 500000
        then FREQ (saturate_parameters p)
        else FREQ p)
  /\ (SW1_state s <> CONFIGURING ->
      FREQ (wave_parameters (loop sin inp s)) = FREQ p).
Proof.
  intros HN HS Hf. cbv zeta.
  destruct (saturate_parameters_fields (wave_parameters s)) as (-> & _).
  rewrite (saturate_freq_valid _ N HN HS), to_uint16_trunc; [|done].
  split; [|split; [|split; [|split; [|split]]]].
  - intros Hgt.
    destruct (Z.gtb_spec (trunc (FREQ (wave_parameters s)))
                (freq_max / (N / 16))); [reflexivity|lia].
  - intros Hle Hpos.
    destruct (Z.gtb_spec (trunc (FREQ (wave_parameters s)))
                (freq_max / (N / 16))); [lia|].
    rewrite Hpos. reflexivity.
  - intros Hle Hneg.
    destruct (Z.gtb_spec (trunc (FREQ (wave_parameters s)))
                (freq_max / (N / 16))); [lia|].
    rewrite Hneg. reflexivity.
  - intros ->. reflexivity.
  - intros Hmode H1 H2. rewrite loop_configuring_FREQ; [|done..].
    destruct (saturate_parameters_fields (wave_parameters s)) as (-> & _).
    rewrite (saturate_freq_valid _ N HN HS), to_uint16_trunc; [|done].
    reflexivity.
  - intros Hmode.
    destruct (Z.eq_dec (SW1_state s) RUNNING) as [E0 | E0].
    { destruct (running_state sin inp s E0) as (_ & -> & _). reflexivity. }
    destruct (Z.eq_dec (SW1_state s) CALCULATING) as [E2 | E2].
    + unfold loop. rewrite E2.
      change (CALCULATING =? RUNNING) with false.
      change (CALCULATING =? CONFIGURING) with false.
      change (CALCULATING =? CALCULATING) with true. cbv iota.
      destruct (_ || _); reflexivity.
    + rewrite other_state; done.
Qed.

Lemma saturate_clamps_frequency_witness :
  let s := with_freq_samples (of_Z 80) (of_Z 128) configuring in
  let inp := {| micros_1 := 600000; micros_2 := 600004;
                pin_CLK := true; pin_DATA := true |} in
  let p := wave_parameters s in
  let b := freq_max / (128 / 16) in
  (b < trunc (FREQ p) -> FREQ (saturate_parameters p) = of_Z b)
  /\ (trunc (FREQ p) <= b -> ltb (FREQ p) (of_Z 0) = false ->
      FREQ (saturate_parameters p) = FREQ p)
  /\ (trunc (FREQ p) <= b -> ltb (FREQ p) (of_Z 0) = true ->
      FREQ (saturate_parameters p) = of_Z 1)
  /\ (128 = 128 -> b = 71)
  /\ (SW1_state s = CONFIGURING -> SW2_state s <> 1 -> SW2_state s <> 2 ->
      FREQ (wave_parameters (loop sin_poly inp s))
      = if Int.u32 (micros_1 inp - last_sample_time2 s) >=? 500000
        then FREQ (saturate_parameters p)
        else FREQ p)
  /\ (SW1_state s <> CONFIGURING ->
      FREQ (wave_parameters (loop sin_poly inp s)) = FREQ p).
Proof.
  apply (saturate_clamps_frequency sin_poly
           {| micros_1 := 600000; micros_2 := 600004;
              pin_CLK := true; pin_DATA := true |}
           (with_freq_samples (of_Z 80) (of_Z 128) configuring) 128).
  - simpl. do 3 right. left. reflexivity.
  - reflexivity.
  - vm_compute. split; [discriminate|reflexivity].
Defined.

(** C6, as the specification words it, fails on a run from [setup]: the
    sample count is taken to 128 and the frequency to 70 Hz, the saturation
    pass runs (at 600 ms) and leaves 70; one more notch gives 80 Hz and the
    mode key is pressed before the next pass is due.  The calculating pass
    then computes the interval from 80 Hz, above the bound 71: it stores 96
    microseconds, and the frequency is still 80. *)
Lemma unclamped_frequency_reaches_update_freq :
  let s :=
    run sin_poly power_on
      ([quiet 2000; PressSW1] ++ field_key 9
       ++ turn 3000 true ++ turn 5000 true
       ++ [PressSW2; quiet 7000; PressSW2]
       ++ turn 8000 true ++ turn 10000 true
       ++ [quiet 600000]
       ++ turn 700000 true
       ++ [PressSW1]) in
  let s' := run sin_poly s [quiet 800000] in
  (last_sample_time2 s = 600004
   /\ SW1_state s = CALCULATING
   /\ SAMPLES (wave_parameters s) = of_Z 128
   /\ FREQ (wave_parameters s) = of_Z 80
   /\ gtb (FREQ (wave_parameters s)) (of_Z 71) = true
   /\ FREQ (saturate_parameters (wave_parameters s)) = of_Z 71)
  /\ (SW1_state s' = RUNNING
      /\ samples_uint s' = 128
      /\ FREQ (wave_parameters s') = of_Z 80
      /\ FREQ (wave_parameters s') <> of_Z 71
      /\ sample_interval s' = 96
      /\ sample_interval s'
         = sample_interval
             (update_freq (with_freq_samples (of_Z 80) (of_Z 128) s))).
Proof. vm_compute. repeat split; congruence. Qed.
